(** * Session controller of the translation client: captions, trace buffer,
      agent discovery and start/stop control.

    The development embeds the React session controller (the component
    [PrymeUI] with the two-tier caption state, called the broadcast variant
    below), the sibling component that drives the agent through RPC, and the
    participant handler of the Flutter client.

    JavaScript strings are sequences of UTF-16 code units, so [length] is the
    JavaScript [length].  A handler is a computation that emits, in call
    order, the state setters and outside effects it performs and finishes
    normally or by throwing; the React state after the handler is the fold of
    the setters over the state before it. *)

From Stdlib Require Import List String Ascii NArith Arith Bool Lia.
From ExtLib Require Import Structures.Monad Structures.MonadExc.
Import ListNotations.
Import MonadNotation.
Local Open Scope monad_scope.
Local Open Scope list_scope.

Set Implicit Arguments.
Set Warnings "-register-all".


(* ===================================================================== *)
(** ** JavaScript strings *)
(* ===================================================================== *)

Module JsString.

(** A string is the list of its UTF-16 code units. *)
Definition jsstring : Type := list N.

(** ASCII literals of the source. *)
Definition lit (s : string) : jsstring :=
  List.map N_of_ascii (list_ascii_of_string s).

Fixpoint eqb (a b : jsstring) : bool :=
  match a, b with
  | [], [] => true
  | c :: a', d :: b' => N.eqb c d && eqb a' b'
  | _, _ => false
  end.

Definition is_empty (s : jsstring) : bool :=
  match s with [] => true | _ :: _ => false end.

(** White space and line terminators removed by [String.prototype.trim]. *)
Definition is_whitespace (c : N) : bool :=
  N.eqb c 9 || N.eqb c 10 || N.eqb c 11 || N.eqb c 12 || N.eqb c 13
  || N.eqb c 32 || N.eqb c 160 || N.eqb c 5760
  || (N.leb 8192 c && N.leb c 8202)
  || N.eqb c 8232 || N.eqb c 8233 || N.eqb c 8239 || N.eqb c 8287
  || N.eqb c 12288 || N.eqb c 65279.

Fixpoint trimStart (s : jsstring) : jsstring :=
  match s with
  | [] => []
  | c :: s' => if is_whitespace c then trimStart s' else s
  end.

Definition trimEnd (s : jsstring) : jsstring := rev (trimStart (rev s)).

Definition trim (s : jsstring) : jsstring := trimEnd (trimStart s).

(** [s.substring(0, n)] *)
Definition substring0 (n : nat) (s : jsstring) : jsstring := firstn n s.

Fixpoint startsWith (sub s : jsstring) : bool :=
  match sub, s with
  | [], _ => true
  | _ :: _, [] => false
  | c :: sub', d :: s' => N.eqb c d && startsWith sub' s'
  end.

(** [s.includes(sub)] *)
Fixpoint includes (s sub : jsstring) : bool :=
  startsWith sub s
  || match s with
     | [] => false
     | _ :: s' => includes s' sub
     end.

(** [parts.join(sep)] *)
Fixpoint join (sep : jsstring) (parts : list jsstring) : jsstring :=
  match parts with
  | [] => []
  | [p] => p
  | p :: rest => p ++ sep ++ join sep rest
  end.

(** The character class of the regular expression in
    [handleTranslationStream]: U+3002, U+FF01, U+FF1F, U+FF0C, U+3001,
    U+FF1B, U+FF1A. *)
Definition kept_punctuation : list N :=
  [12290; 65281; 65311; 65292; 12289; 65307; 65306]%N.

Definition is_kept_punctuation (c : N) : bool :=
  existsb (N.eqb c) kept_punctuation.

(** [/[...]/.test(s)]: some code unit of [s] is in the class. *)
Definition punctuation_test (s : jsstring) : bool :=
  existsb is_kept_punctuation s.

(** [' ⏳'], the pending indicator: a space and U+23F3. *)
Definition pending_indicator : jsstring := [32; 9203]%N.

(** ['翻译状态: '] *)
Definition status_prefix : jsstring :=
  [32763; 35793; 29366; 24577; 58; 32]%N.

(** ['翻译模式已启动，请开始说话...'] *)
Definition msg_started : jsstring :=
  [32763; 35793; 27169; 24335; 24050; 21551; 21160; 65292; 35831; 24320;
   22987; 35828; 35805; 46; 46; 46]%N.

(** ['翻译模式已停止'] *)
Definition msg_stopped : jsstring :=
  [32763; 35793; 27169; 24335; 24050; 20572; 27490]%N.

(** ['翻译控制失败，请重试'] *)
Definition msg_control_failed : jsstring :=
  [32763; 35793; 25511; 21046; 22833; 36133; 65292; 35831; 37325; 35797]%N.

(** ['请先连接到房间'] *)
Definition msg_connect_first : jsstring :=
  [35831; 20808; 36830; 25509; 21040; 25151; 38388]%N.

(** ['请确保麦克风已启用且未被静音'] *)
Definition msg_microphone : jsstring :=
  [35831; 30830; 20445; 40614; 20811; 39118; 24050; 21551; 29992; 19988;
   26410; 34987; 38745; 38899]%N.

(** ['控制翻译失败'] *)
Definition msg_toggle_failed : jsstring :=
  [25511; 21046; 32763; 35793; 22833; 36133]%N.

(** ['。请检查网络连接并重试。'] *)
Definition msg_check_network : jsstring :=
  [12290; 35831; 26816; 26597; 32593; 32476; 36830; 25509; 24182; 37325;
   35797; 12290]%N.

(** ['控制翻译失败，请稍后重试'] *)
Definition msg_rpc_failed : jsstring :=
  [25511; 21046; 32763; 35793; 22833; 36133; 65292; 35831; 31245; 21518;
   37325; 35797]%N.

End JsString.
Import JsString.

(* ===================================================================== *)
(** ** JavaScript values read from a payload *)
(* ===================================================================== *)

Module Json.

(** A Number, carried by the two observations the handlers make of one:
    its truth value ([ToBoolean]) and its rendering ([ToString]). *)
Record JsNumber : Type := mkNumber {
  number_truthy : bool;
  number_text : jsstring
}.

(** What [JSON.parse] builds, and [undefined] for a property that is not
    there.  An object keeps its members in source order. *)
Inductive JsValue : Type :=
| JUndefined
| JNull
| JBool (b : bool)
| JNumber (n : JsNumber)
| JString (s : jsstring)
| JArray (items : list JsValue)
| JObject (members : list (jsstring * JsValue)).

(** [ToBoolean] *)
Definition truthy (v : JsValue) : bool :=
  match v with
  | JUndefined | JNull => false
  | JBool b => b
  | JNumber n => number_truthy n
  | JString s => negb (is_empty s)
  | JArray _ | JObject _ => true
  end.

(** [a || b] *)
Definition js_or (a b : JsValue) : JsValue := if truthy a then a else b.

(** [v === 'literal'] *)
Definition strict_eq_string (v : JsValue) (s : jsstring) : bool :=
  match v with
  | JString t => JsString.eqb t s
  | _ => false
  end.

(** [v == null]: the test behind [?.] *)
Definition nullish (v : JsValue) : bool :=
  match v with
  | JUndefined | JNull => true
  | _ => false
  end.

(** Own property of an object literal; a repeated key keeps its last
    value, as [JSON.parse] does. *)
Fixpoint lookup (k : jsstring) (members : list (jsstring * JsValue))
  : option JsValue :=
  match members with
  | [] => None
  | (k', v) :: rest =>
      match lookup k rest with
      | Some w => Some w
      | None => if JsString.eqb k' k then Some v else None
      end
  end.

Definition has_key (k : jsstring) (members : list (jsstring * JsValue))
  : bool :=
  match lookup k members with Some _ => true | None => false end.

(** [ToString], [None] when it throws a TypeError: an object that has its
    own [toString] member (never callable in parsed JSON) cannot be
    converted; an array is joined with commas, [null] rendering empty. *)
Fixpoint ToString (v : JsValue) : option jsstring :=
  match v with
  | JUndefined => Some (lit "undefined")
  | JNull => Some (lit "null")
  | JBool true => Some (lit "true")
  | JBool false => Some (lit "false")
  | JNumber n => Some (number_text n)
  | JString s => Some s
  | JArray items =>
      option_map (join (lit ","))
        ((fix elements (l : list JsValue) : option (list jsstring) :=
            match l with
            | [] => Some []
            | x :: rest =>
                match (if nullish x then Some [] else ToString x),
                      elements rest with
                | Some s, Some ss => Some (s :: ss)
                | _, _ => None
                end
            end) items)
  | JObject members =>
      if has_key (lit "toString") members then None
      else Some (lit "[object Object]")
  end.

End Json.
Import Json.

(* ===================================================================== *)
(** ** Room objects, state setters and effects *)
(* ===================================================================== *)

Inductive TrackKind : Type := Audio | Video.

Record Track : Type := mkTrack {
  kind : TrackKind;
  sid : jsstring
}.

Record TrackPublication : Type := mkPublication {
  trackSid : jsstring;
  track : option Track
}.

Record Participant : Type := mkParticipant {
  identity : jsstring;
  tracks : list TrackPublication
}.

(** The local microphone, as [toggleTranslation] inspects it. *)
Record LocalTrack : Type := mkLocalTrack {
  isMuted : bool
}.

Record LocalPublication : Type := mkLocalPublication {
  localTrack : option LocalTrack
}.

(** [roomRef.current]: the room name and what
    [localParticipant.getTrack(Track.Source.Microphone)] returns. *)
Record Room : Type := mkRoom {
  name : jsstring;
  microphone : option LocalPublication
}.

(** One entry of the event history ([eventInfo]). *)
Record EventInfo : Type := mkEventInfo {
  info_type : JsValue;
  info_text : jsstring;
  info_chunk : JsValue;
  info_is_final : JsValue;
  info_source_language : JsValue;
  info_target_language : JsValue;
  info_confidence : JsValue;
  info_timestamp : JsValue;
  info_received_at : jsstring
}.

(** What a handler does to the outside, in the order it does it: the React
    state setters it calls and the calls it makes on the room, the window
    and the console.  A console call is kept where it prints the sender of a
    data message, which is the one input of the data handler that is not
    taken from the payload. *)
Inductive Action : Type :=
| SetSubtitle (s : jsstring)
| SetPartialSubtitle (s : jsstring)
| SetFinalSubtitle (s : jsstring)
| SetDebugEvents (eventInfo : EventInfo)
    (* setDebugEvents(prev => [eventInfo, ...prev].slice(0, 20)) *)
| SetIsTranslating (b : bool)
| SetAgentParticipant (p : option Participant)
| PublishData (data : JsValue)
    (* room.localParticipant.publishData(encode(stringify(data)), RELIABLE) *)
| PerformRpc (destination method : jsstring)
    (* room.localParticipant.rpc(destination, method) *)
| ScheduleTestMessage (delay_ms : N)
    (* setTimeout(publish the TEST MESSAGE stream event, delay_ms) *)
| ListenTracks (who : jsstring)
    (* participant.on('trackSubscribed' / 'trackUnsubscribed', ...) *)
| AttachAudio (trackId : jsstring)
    (* track.attach(), audioRef.current = element, element.play() *)
| Alert (text : jsstring)
| ConsoleLog (sender : option jsstring)
| ConsoleError.

Inductive JsError : Type :=
| TypeError
| SyntaxError
| Rejected (message : jsstring).

Inductive Completion (A : Type) : Type :=
| Normal (a : A)
| Throw (e : JsError).
Arguments Throw {A} e.

(** A computation: the actions performed so far and how it finished.  The
    actions of a computation that throws have been performed all the same. *)
Definition Js (A : Type) : Type := (list Action * Completion A)%type.

#[export] Instance Monad_Js : Monad Js := {
  ret := fun _ a => ([], Normal a);
  bind := fun _ _ c f =>
    match c with
    | (done, Normal a) => let '(more, r) := f a in (done ++ more, r)
    | (done, Throw e) => (done, Throw e)
    end
}.

(** [try { c } catch (e) { handler e }] *)
#[export] Instance Exc_Js : MonadExc JsError Js := {
  raise := fun _ e => ([], Throw e);
  catch := fun _ c handler =>
    match c with
    | (done, Normal a) => (done, Normal a)
    | (done, Throw e) => let '(more, r) := handler e in (done ++ more, r)
    end
}.

Definition emit (a : Action) : Js unit := ([a], Normal tt).

Definition actions {A : Type} (c : Js A) : list Action := fst c.

Definition completion {A : Type} (c : Js A) : Completion A := snd c.

(** [v.member] on a value that is neither [null] nor [undefined], for the
    member names this program reads (no prototype defines any of them). *)
Definition member (v : JsValue) (key : string) : JsValue :=
  match v with
  | JObject members =>
      match lookup (lit key) members with
      | Some w => w
      | None => JUndefined
      end
  | _ => JUndefined
  end.

(** [v.member]: reading from [null] or [undefined] throws. *)
Definition get (v : JsValue) (key : string) : Js JsValue :=
  if nullish v then raise TypeError else ret (member v key).

(** The receiver of [.substring], [.trim] and [.length > n]: only a string
    has these methods; on anything else the call throws. *)
Definition string_receiver (v : JsValue) : Js jsstring :=
  match v with
  | JString s => ret s
  | _ => raise TypeError
  end.

(** [`${v}`] *)
Definition template (v : JsValue) : Js jsstring :=
  match ToString v with
  | Some s => ret s
  | None => raise TypeError
  end.

(* ===================================================================== *)
(** ** The React state of [PrymeUI] *)
(* ===================================================================== *)

Record UI : Type := mkUI {
  isConnected : bool;
  isTranslating : bool;
  subtitle : jsstring;
  partialSubtitle : jsstring;
  finalSubtitle : jsstring;
  agentParticipant : option Participant;
  debugEvents : list EventInfo
}.

(** [useState] initial values. *)
Definition initialUI : UI :=
  mkUI false false [] [] [] None [].

(** The effect of one action on the state: setters assign, the functional
    update of the event history prepends and keeps twenty; the other actions
    leave the state alone. *)
Definition reduce (st : UI) (a : Action) : UI :=
  match a with
  | SetSubtitle s =>
      mkUI (isConnected st) (isTranslating st) s (partialSubtitle st)
           (finalSubtitle st) (agentParticipant st) (debugEvents st)
  | SetPartialSubtitle s =>
      mkUI (isConnected st) (isTranslating st) (subtitle st) s
           (finalSubtitle st) (agentParticipant st) (debugEvents st)
  | SetFinalSubtitle s =>
      mkUI (isConnected st) (isTranslating st) (subtitle st)
           (partialSubtitle st) s (agentParticipant st) (debugEvents st)
  | SetDebugEvents eventInfo =>
      mkUI (isConnected st) (isTranslating st) (subtitle st)
           (partialSubtitle st) (finalSubtitle st) (agentParticipant st)
           (firstn 20 (eventInfo :: debugEvents st))
  | SetIsTranslating b =>
      mkUI (isConnected st) b (subtitle st) (partialSubtitle st)
           (finalSubtitle st) (agentParticipant st) (debugEvents st)
  | SetAgentParticipant p =>
      mkUI (isConnected st) (isTranslating st) (subtitle st)
           (partialSubtitle st) (finalSubtitle st) p (debugEvents st)
  | PublishData _ | PerformRpc _ _ | ScheduleTestMessage _ | ListenTracks _
  | AttachAudio _ | Alert _ | ConsoleLog _ | ConsoleError => st
  end.

(** The state once a handler has run. *)
Definition run {A : Type} (c : Js A) (st : UI) : UI :=
  fold_left reduce (actions c) st.

(** The caption part of the state: (displayText, partialText, finalText). *)
Definition caption (st : UI) : jsstring * jsstring * jsstring :=
  (subtitle st, partialSubtitle st, finalSubtitle st).

(* ===================================================================== *)
(** ** Caption handlers of the broadcast variant *)
(* ===================================================================== *)

(** [handleTranslationStream(data)] *)
Definition handleTranslationStream (data : JsValue) : Js unit :=
  text0 <- get data "text" ;;
  chunk0 <- get data "chunk" ;;
  final0 <- get data "is_final" ;;
  let text := js_or text0 (JString []) in
  let isFinal := js_or final0 (JBool false) in
  (* the log line calls text.substring and reads text.length *)
  t <- string_receiver text ;;
  if negb (truthy text) || Nat.eqb (List.length (trim t)) 0 then
    ret tt
  else if Nat.eqb (List.length (trim t)) 1 && negb (punctuation_test (trim t)) then
    ret tt
  else if truthy isFinal then
    emit (SetFinalSubtitle t) ;;
    emit (SetPartialSubtitle []) ;;
    emit (SetSubtitle t)
  else
    emit (SetPartialSubtitle t) ;;
    emit (SetSubtitle (t ++ pending_indicator)).

(** [handleTranslation(data)] *)
Definition handleTranslation (data : JsValue) : Js unit :=
  text0 <- get data "text" ;;
  content0 <- get data "content" ;;
  let text := js_or (js_or text0 content0) (JString []) in
  t <- string_receiver text ;;
  if truthy text && negb (is_empty (trim t)) then
    emit (SetFinalSubtitle t) ;;
    emit (SetPartialSubtitle []) ;;
    emit (SetSubtitle t)
  else
    ret tt.

(** [handleTranscript(data)]: the transcript is logged, never displayed. *)
Definition handleTranscript (data : JsValue) : Js unit :=
  text0 <- get data "text" ;;
  content0 <- get data "content" ;;
  let text := js_or (js_or text0 content0) (JString []) in
  t <- string_receiver text ;;
  ret tt.

(** [handleTranslationStatus(data)] *)
Definition handleTranslationStatus (data : JsValue) : Js unit :=
  status0 <- get data "status" ;;
  language0 <- get data "language" ;;
  let status := js_or status0 (JString []) in
  let language := js_or language0 (JString []) in
  shown <- template status ;;
  suffix <- (if truthy language then
               l <- template language ;;
               ret (lit " (" ++ l ++ lit ")")
             else ret []) ;;
  emit (SetSubtitle (status_prefix ++ shown ++ suffix)) ;;
  if strict_eq_string status (lit "stopped") then
    emit (SetPartialSubtitle []) ;;
    emit (SetFinalSubtitle [])
  else
    ret tt.

(* ===================================================================== *)
(** ** The data handler *)
(* ===================================================================== *)

(** A payload, seen through the two library calls the handler makes on it:
    [decoded] is [new TextDecoder().decode(e.payload)] (which replaces
    malformed input and does not throw) and [parsed] is the value of
    [JSON.parse(decoded)], [None] when it throws a SyntaxError. *)
Record Payload : Type := mkPayload {
  decoded : jsstring;
  parsed : option JsValue
}.

(** The argument of the data handler: [e.payload] and
    [e.participant?.identity]. *)
Record DataEvent : Type := mkDataEvent {
  payload : Payload;
  sender : option jsstring
}.

Definition JSON_parse (p : Payload) : Js JsValue :=
  match parsed p with
  | Some v => ret v
  | None => raise SyntaxError
  end.

(** [text?.substring(0, 100) + (text?.length > 100 ? '...' : '')] *)
Definition text_summary (text : JsValue) : Js jsstring :=
  if nullish text then ret (lit "undefined")
  else
    t <- string_receiver text ;;
    ret (substring0 100 t ++ (if Nat.ltb 100 (List.length t) then lit "..." else [])).

(** [handleDataReceived(e)]; [now] is [new Date().toISOString()]. *)
Definition handleDataReceived (now : jsstring) (e : DataEvent) : Js unit :=
  emit (ConsoleLog (sender e)) ;;
  catch
    (let message := decoded (payload e) in
     emit (ConsoleLog (sender e)) ;;
     catch
       (jsonData <- JSON_parse (payload e) ;;
        type <- get jsonData "type" ;;
        text <- get jsonData "text" ;;
        shortText <- text_summary text ;;
        chunk <- get jsonData "chunk" ;;
        is_final <- get jsonData "is_final" ;;
        source_language <- get jsonData "source_language" ;;
        target_language <- get jsonData "target_language" ;;
        confidence <- get jsonData "confidence" ;;
        timestamp <- get jsonData "timestamp" ;;
        emit (SetDebugEvents
                (mkEventInfo type shortText chunk is_final source_language
                             target_language confidence timestamp now)) ;;
        if strict_eq_string type (lit "translation_stream") then
          handleTranslationStream jsonData
        else if strict_eq_string type (lit "translation") then
          handleTranslation jsonData
        else if strict_eq_string type (lit "transcript") then
          handleTranscript jsonData
        else if strict_eq_string type (lit "translation_status") then
          handleTranslationStatus jsonData
        else
          text' <- get jsonData "text" ;;
          blank <- (if truthy text' then
                      t <- string_receiver text' ;;
                      ret (is_empty (trim t))
                    else ret true) ;;
          if blank then emit (SetSubtitle message)
          else
            t <- string_receiver text' ;;
            emit (SetSubtitle t))
       (fun parseError =>
          if negb (is_empty message) && negb (is_empty (trim message)) then
            emit (SetSubtitle message)
          else ret tt))
    (fun error => emit ConsoleError).

(* ===================================================================== *)
(** ** Agent discovery *)
(* ===================================================================== *)

(** [handleTrackSubscribed(track, publication)].  What the handler does
    before it returns is one action: the audio track is attached, the
    element kept and its playback asked for.  The promise of [play()]
    settles after the handler has returned; its callback
    [setIsPlaying(true)] sets the flag of the audio controls, which is not
    among the fields of [UI]. *)
Definition handleTrackSubscribed (t : Track) (publication : TrackPublication)
  : Js unit :=
  match kind t with
  | Audio => emit (AttachAudio (sid t))
  | Video => ret tt
  end.

(** [participant.tracks.forEach(...)] of [handleParticipantConnected] *)
Fixpoint attachExisting (publications : list TrackPublication) : Js unit :=
  match publications with
  | [] => ret tt
  | publication :: rest =>
      match track publication with
      | Some t => handleTrackSubscribed t publication
      | None => ret tt
      end ;;
      attachExisting rest
  end.

(** [handleParticipantConnected(participant)] *)
Definition handleParticipantConnected (participant : Participant) : Js unit :=
  if includes (identity participant) (lit "translator")
     || includes (identity participant) (lit "agent")
  then
    emit (SetAgentParticipant (Some participant)) ;;
    emit (ListenTracks (identity participant)) ;;
    attachExisting (tracks participant)
  else
    ret tt.

(** The participant handler of the Flutter client; [_agent] is the state it
    assigns. *)
Module Flutter.

Definition _handleParticipant (participant : Participant)
    (_agent : option Participant) : option Participant :=
  if includes (identity participant) (lit "translator")
  then Some participant
  else _agent.

End Flutter.

(* ===================================================================== *)
(** ** Start / stop control *)
(* ===================================================================== *)

(** The control message of the broadcast variant, before
    [JSON.stringify]. *)
Definition controlMessage (action : string) (now : JsNumber) (room : Room)
  : JsValue :=
  JObject [ (lit "type", JString (lit "translation_control"));
            (lit "action", JString (lit action));
            (lit "timestamp", JNumber now);
            (lit "room", JString (name room)) ].

(** An awaited call on the room: the call is made; [outcome] is [None] when
    its promise resolves and the error message when it rejects. *)
Definition await (call : Action) (outcome : option jsstring) : Js unit :=
  emit call ;;
  match outcome with
  | None => ret tt
  | Some message => raise (Rejected message)
  end.

Definition error_message (e : JsError) : jsstring :=
  match e with
  | Rejected message => message
  | TypeError | SyntaxError => []
  end.

(** [!micTrack || !micTrack.track || micTrack.track.isMuted] *)
Definition microphone_unusable (room : Room) : bool :=
  match microphone room with
  | None => true
  | Some micTrack =>
      match localTrack micTrack with
      | None => true
      | Some t => isMuted t
      end
  end.

Module Broadcast.

(** [toggleTranslation()] of the broadcast variant.  [st] is the state the
    closure sees, [roomRef] is [roomRef.current], [now] is [Date.now()] and
    [outcome] is how [publishData] settles.  The first match is the guard
    [if (!isConnected || !roomRef.current)]; no agent is asked for. *)
Definition toggleTranslation (st : UI) (roomRef : option Room)
    (now : JsNumber) (outcome : option jsstring) : Js unit :=
  match (if isConnected st then roomRef else None) with
  | None =>
      emit ConsoleError ;;
      emit (Alert msg_connect_first)
  | Some room =>
      catch
        (if microphone_unusable room then
           emit (Alert msg_microphone)
         else if negb (isTranslating st) then
           await (PublishData (controlMessage "start" now room)) outcome ;;
           emit (SetIsTranslating true) ;;
           emit (SetSubtitle msg_started) ;;
           emit (ScheduleTestMessage 2000)
         else
           await (PublishData (controlMessage "stop" now room)) outcome ;;
           emit (SetIsTranslating false) ;;
           emit (SetSubtitle msg_stopped))
        (fun error =>
           emit ConsoleError ;;
           emit (SetIsTranslating false) ;;
           emit (SetSubtitle msg_control_failed) ;;
           emit (Alert (msg_toggle_failed
                        ++ (if is_empty (error_message error) then []
                            else lit ": " ++ error_message error)
                        ++ msg_check_network)))
  end.

End Broadcast.

Module Rpc.

(** [toggleTranslation()] of the RPC variant, which addresses the agent.
    The match is the guard
    [if (!isConnected || !roomRef.current || !agentParticipant)]. *)
Definition toggleTranslation (st : UI) (roomRef : option Room)
    (outcome : option jsstring) : Js unit :=
  match (if isConnected st then roomRef else None), agentParticipant st with
  | Some room, Some agent =>
      catch
        (if negb (isTranslating st) then
           await (PerformRpc (identity agent) (lit "start_translation"))
                 outcome ;;
           emit (SetIsTranslating true)
         else
           await (PerformRpc (identity agent) (lit "stop_translation"))
                 outcome ;;
           emit (SetIsTranslating false))
        (fun error =>
           emit ConsoleError ;;
           emit (Alert msg_rpc_failed))
  | _, _ => emit ConsoleError
  end.

End Rpc.

(** The calls that put something on the network. *)
Definition is_network (a : Action) : bool :=
  match a with
  | PublishData _ | PerformRpc _ _ | ScheduleTestMessage _ => true
  | _ => false
  end.

Definition network (c : Js unit) : list Action :=
  filter is_network (actions c).

(* ===================================================================== *)
(** ** The data handler seen as decode, trace, apply *)
(* ===================================================================== *)

(** The classification that the dispatch of [handleDataReceived] performs.
    The structured variants carry the parsed object as the handlers read
    it. *)
Inductive InboundEvent : Type :=
| TranslationStreamEvent (data : JsValue)
| TranslationEvent (data : JsValue)
| TranscriptEvent (data : JsValue)
| TranslationStatusEvent (data : JsValue)
| UnknownEvent (rawType : JsValue) (text : JsValue)
| PlainTextEvent (text : jsstring).

(** The history entry can be built: the payload parsed to something other
    than [null] whose [text] is a string or missing. *)
Definition structured (p : Payload) : option JsValue :=
  match parsed p with
  | Some jsonData =>
      if nullish jsonData then None
      else
        match member jsonData "text" with
        | JUndefined | JNull | JString _ => Some jsonData
        | _ => None
        end
  | None => None
  end.

Definition decode (p : Payload) : InboundEvent :=
  match structured p with
  | Some jsonData =>
      let type := member jsonData "type" in
      if strict_eq_string type (lit "translation_stream") then
        TranslationStreamEvent jsonData
      else if strict_eq_string type (lit "translation") then
        TranslationEvent jsonData
      else if strict_eq_string type (lit "transcript") then
        TranscriptEvent jsonData
      else if strict_eq_string type (lit "translation_status") then
        TranslationStatusEvent jsonData
      else
        UnknownEvent type (member jsonData "text")
  | None => PlainTextEvent (decoded p)
  end.

(** The [catch (parseError)] arm. *)
Definition plainText (message : jsstring) : Js unit :=
  if negb (is_empty message) && negb (is_empty (trim message)) then
    emit (SetSubtitle message)
  else ret tt.

(** The arm of the dispatch that a variant selects; a handler that throws
    lands in the [catch (parseError)] arm with the raw message. *)
Definition apply (message : jsstring) (event : InboundEvent) : Js unit :=
  match event with
  | TranslationStreamEvent data =>
      catch (handleTranslationStream data) (fun _ => plainText message)
  | TranslationEvent data =>
      catch (handleTranslation data) (fun _ => plainText message)
  | TranscriptEvent data =>
      catch (handleTranscript data) (fun _ => plainText message)
  | TranslationStatusEvent data =>
      catch (handleTranslationStatus data) (fun _ => plainText message)
  | UnknownEvent _ (JString t) =>
      if is_empty (trim t) then emit (SetSubtitle message)
      else emit (SetSubtitle t)
  | UnknownEvent _ _ => emit (SetSubtitle message)
  | PlainTextEvent text => plainText text
  end.

(** The history entry of a structured payload. *)
Definition eventInfoOf (now : jsstring) (jsonData : JsValue) : EventInfo :=
  mkEventInfo
    (member jsonData "type")
    (match member jsonData "text" with
     | JString t =>
         substring0 100 t
         ++ (if Nat.ltb 100 (List.length t) then lit "..." else [])
     | _ => lit "undefined"
     end)
    (member jsonData "chunk")
    (member jsonData "is_final")
    (member jsonData "source_language")
    (member jsonData "target_language")
    (member jsonData "confidence")
    (member jsonData "timestamp")
    now.

(** The insertion into the event history that a payload causes. *)
Definition traceInsert (now : jsstring) (p : Payload) : list Action :=
  match structured p with
  | Some jsonData => [SetDebugEvents (eventInfoOf now jsonData)]
  | None => []
  end.

Definition is_console (a : Action) : bool :=
  match a with
  | ConsoleLog _ | ConsoleError => true
  | _ => false
  end.

Definition is_caption_action (a : Action) : bool :=
  match a with
  | SetSubtitle _ | SetPartialSubtitle _ | SetFinalSubtitle _ => true
  | _ => false
  end.

(** What a handler did, console output left out. *)
Definition effects {A : Type} (c : Js A) : list Action :=
  filter (fun a => negb (is_console a)) (actions c).

(** Processing a sequence of inbound data events, one after the other. *)
Definition receiveAll (events : list (jsstring * DataEvent)) (st : UI) : UI :=
  fold_left (fun s ne => run (handleDataReceived (fst ne) (snd ne)) s)
            events st.

(** The relation between the three caption fields that the spec states. *)
Definition caption_invariant (st : UI) : Prop :=
  subtitle st =
    if negb (is_empty (partialSubtitle st)) then
      partialSubtitle st ++ pending_indicator
    else if negb (is_empty (finalSubtitle st)) then finalSubtitle st
    else [].

(** Inserting entries into the event history, oldest insertion first. *)
Definition insertAll (entries : list EventInfo) (st : UI) : UI :=
  fold_left (fun s i => reduce s (SetDebugEvents i)) entries st.

(* ===================================================================== *)
(** ** Notions used in the statements *)
(* ===================================================================== *)

(** The state with its three caption fields replaced. *)
Definition setCaption (st : UI) (display partial final : jsstring) : UI :=
  mkUI (isConnected st) (isTranslating st) display partial final
       (agentParticipant st) (debugEvents st).

(** The status line: the prefix, the status and, when there is a language
    (a non-empty one), the language in parentheses. *)
Definition statusLine (status : jsstring) (language : option jsstring)
  : jsstring :=
  status_prefix ++ status
  ++ match language with
     | Some (c :: l) => lit " (" ++ (c :: l) ++ lit ")"
     | Some [] | None => []
     end.

(** An optional string member as the parsed object holds it. *)
Definition optionalString (s : option jsstring) : JsValue :=
  match s with
  | Some t => JString t
  | None => JUndefined
  end.

(** A computation whose every action sets a caption field. *)
Definition caption_only {A : Type} (c : Js A) : Prop :=
  Forall (fun a => is_caption_action a = true) (actions c).

(** The type discriminators that have a handler of their own. *)
Definition recognized (type : JsValue) : bool :=
  strict_eq_string type (lit "translation_stream")
  || strict_eq_string type (lit "translation")
  || strict_eq_string type (lit "transcript")
  || strict_eq_string type (lit "translation_status").

Definition is_string (v : JsValue) : bool :=
  match v with
  | JString _ => true
  | _ => false
  end.


(** [sub] occurs in [s]. *)
Definition contains (s sub : jsstring) : Prop :=
  exists pre post, s = pre ++ sub ++ post.

(** The identities that the heuristic of the web client takes for the
    translation agent. *)
Definition isAgent (who : jsstring) : Prop :=
  contains who (lit "translator") \/ contains who (lit "agent").

(** A stream event is discarded when its text is empty or white space only,
    or trims to one code unit outside the punctuation class. *)
Definition discarded (text : jsstring) : Prop :=
  forallb is_whitespace text = true
  \/ exists c, trim text = [c] /\ ~ In c kept_punctuation.

(* ===================================================================== *)
(** ** Sample inputs *)
(* ===================================================================== *)

Module Sample.

Definition object (members : list (string * JsValue)) : JsValue :=
  JObject (List.map (fun kv => (lit (fst kv), snd kv)) members).

Definition number (n : N) (text : string) : JsNumber :=
  mkNumber (negb (N.eqb n 0)) (lit text).

Definition entry (n : nat) : EventInfo :=
  mkEventInfo (JString (lit "translation_stream")) (lit "text")
              JUndefined (JBool false) JUndefined JUndefined JUndefined
              (JNumber (mkNumber true (repeat 49%N n))) (lit "now").

Definition entries25 : list EventInfo := List.map entry (seq 1 25).

(** ['，'] *)
Definition fullwidth_comma : jsstring := [65292%N].

Definition stream (text : jsstring) (is_final : bool) : JsValue :=
  object [ ("type", JString (lit "translation_stream"));
           ("text", JString text);
           ("chunk", JString text);
           ("is_final", JBool is_final) ]%string.

Definition status (s : string) (language : option string) : JsValue :=
  object ([ ("type", JString (lit "translation_status"));
            ("status", JString (lit s)) ]%string
          ++ match language with
             | Some l => [ ("language"%string, JString (lit l)) ]
             | None => []
             end).

(** A member name or string value as it stands in JSON text. *)
Definition quote (s : string) : jsstring := [34%N] ++ lit s ++ [34%N].

(** A data event whose payload is JSON text, with the value it parses to. *)
Definition json (message : jsstring) (value : JsValue)
    (who : option string) : DataEvent :=
  mkDataEvent (mkPayload message (Some value)) (option_map lit who).

(** A data event whose payload is not JSON. *)
Definition plain (message : string) (who : option string) : DataEvent :=
  mkDataEvent (mkPayload (lit message) None) (option_map lit who).

(** The payload [hello]. *)
Definition hello : DataEvent := plain "hello" (Some "translator-42"%string).

(** The payload [{"type":"foo"}]. *)
Definition foo : DataEvent :=
  json (lit "{" ++ quote "type" ++ lit ":" ++ quote "foo" ++ lit "}")
       (object [ ("type"%string, JString (lit "foo")) ])
       (Some "translator-42"%string).


(** The payload
    [{"type":"translation_stream","text":T,"chunk":T,"is_final":B}]
    from a given sender, for a text [T] that needs no escaping. *)
Definition streamEvent (text : jsstring) (is_final : bool)
    (who : option string) : DataEvent :=
  json (lit "{" ++ quote "type" ++ lit ":" ++ quote "translation_stream"
        ++ lit "," ++ quote "text" ++ lit ":" ++ [34%N] ++ text ++ [34%N]
        ++ lit "," ++ quote "chunk" ++ lit ":" ++ [34%N] ++ text ++ [34%N]
        ++ lit "," ++ quote "is_final" ++ lit ":"
        ++ lit (if is_final then "true" else "false") ++ lit "}")
       (stream text is_final)
       who.

(** The stream event for ['，'], not final. *)
Definition comma (who : option string) : DataEvent :=
  streamEvent fullwidth_comma false who.

(** A room whose microphone is published and not muted. *)
Definition room : Room :=
  mkRoom (lit "Pryme-Korean")
         (Some (mkLocalPublication (Some (mkLocalTrack false)))).

(** A room whose microphone is muted. *)
Definition mutedRoom : Room :=
  mkRoom (lit "Pryme-Korean")
         (Some (mkLocalPublication (Some (mkLocalTrack true)))).

(** Connected, not translating, no agent discovered. *)
Definition connectedUI : UI := mkUI true false [] [] [] None [].

Definition clock : JsNumber := number 1700000000000 "1700000000000".

Definition translator42 : Participant :=
  mkParticipant (lit "translator-42")
                [ mkPublication (lit "TR_a")
                                (Some (mkTrack Audio (lit "TR_a"))) ].

Definition listener7 : Participant := mkParticipant (lit "listener-7") [].

Definition agent1 : Participant := mkParticipant (lit "agent-1") [].

(** Connected, translating, with [translator42] as the agent. *)
Definition agentUI : UI :=
  mkUI true true [] [] [] (Some translator42) [].

(** A state that shows a pending partial over an earlier final. *)
Definition busyUI : UI :=
  mkUI true true (lit "par" ++ pending_indicator) (lit "par") (lit "fin")
       None [].

End Sample.

(* ===================================================================== *)
(** ** Further notions used in the statements *)
(* ===================================================================== *)

(** The history entries that a sequence of data events inserts, in order of
    arrival. *)
Definition tracedEntries (events : list (jsstring * DataEvent))
  : list EventInfo :=
  flat_map (fun ne =>
              match structured (payload (snd ne)) with
              | Some jsonData => [eventInfoOf (fst ne) jsonData]
              | None => []
              end) events.

(** The string that [handleTranslation] and [handleTranscript] work on:
    [data.text || data.content || '']. *)
Definition textOrContent (data : JsValue) : JsValue :=
  js_or (js_or (member data "text") (member data "content")) (JString []).

(** [!text || text.trim().length === 0], or one code unit outside the
    punctuation class: the two filters of the stream handler. *)
Definition filteredOut (text : jsstring) : bool :=
  Nat.eqb (List.length (trim text)) 0
  || Nat.eqb (List.length (trim text)) 1
     && negb (punctuation_test (trim text)).

(** A payload that sets a caption text: a stream event whose text passes
    the filters, or a translation event whose text (or content) is a string
    that is not blank. *)
Definition acceptedEvent (p : Payload) : bool :=
  match structured p with
  | Some jsonData =>
      let type := member jsonData "type" in
      if strict_eq_string type (lit "translation_stream") then
        match member jsonData "text" with
        | JString t => negb (filteredOut t)
        | _ => false
        end
      else if strict_eq_string type (lit "translation") then
        match textOrContent jsonData with
        | JString t => negb (is_empty (trim t))
        | _ => false
        end
      else false
  | None => false
  end.

(** The text of a translation event given as optional strings: the text
    when there is a non-empty one, else the content, else the empty
    string. *)
Definition chosenText (text content : option jsstring) : jsstring :=
  match text with
  | Some (c :: t) => c :: t
  | Some [] | None =>
      match content with
      | Some s => s
      | None => []
      end
  end.

(** Overwriting a field when a value was set for it. *)
Definition overwrite (set : option jsstring) (old : jsstring) : jsstring :=
  match set with
  | Some v => v
  | None => old
  end.

(** [identity.includes('translator') || identity.includes('agent')] *)
Definition matchesAgent (who : jsstring) : bool :=
  includes who (lit "translator") || includes who (lit "agent").

(** Participants joining one after the other, and the replay
    [room.participants.forEach(handleParticipantConnected)]. *)
Definition joinAll (participants : list Participant) (st : UI) : UI :=
  fold_left (fun s p => run (handleParticipantConnected p) s)
            participants st.

(** The last element that satisfies a test. *)
Definition findLast {A : Type} (test : A -> bool) (l : list A) : option A :=
  find test (rev l).

(** Decimal digits, as [Date.now()] renders in a template literal. *)
Definition is_digit (c : N) : bool := N.leb 48 c && N.leb c 57.

(* ===================================================================== *)
(** ** The page around the session: joining, connecting, leaving *)
(* ===================================================================== *)

(** An entry of the [languages] table. *)
Record Language : Type := mkLanguage {
  lang : jsstring;
  flag : jsstring;
  languageName : jsstring;
  languageId : jsstring;
  roomName : jsstring
}.

(** [ConnectionState] of the media library. *)
Inductive ConnectionState : Type :=
| Disconnected
| Connecting
| Connected
| Reconnecting.

(** The state of [PrymeUI] beyond the session fields: [roomRef.current] and
    the state variables of room selection and of the debug panel. *)
Record Page : Type := mkPage {
  ui : UI;
  roomRefCurrent : option Room;
  selectedRoom : option Language;
  token : JsValue;
  liveKitUrl : JsValue;
  showDebugPanel : bool
}.

(** [useState] and [useRef] initial values. *)
Definition initialPage : Page :=
  mkPage initialUI None None (JString []) (JString []) false.

(** Why a join failed: what the error caught in [joinRoom] is. *)
Inductive JoinFailure : Type :=
| Thrown (message : jsstring)
    (* an error thrown by fetch() or by response.json() *)
| HttpError (status : jsstring)
    (* new Error(`HTTP error! status: ${response.status}`) *)
| ServerError (error : JsValue)
    (* new Error(data.error) *)
| NoBody.
    (* data is null: reading data.error throws *)

(** What the handlers of the page do, in order: the actions of the session
    handlers, and the setters and calls that only the page has. *)
Inductive PageAction : Type :=
| OnUI (a : Action)
| SetIsConnected (b : bool)
| ClearDebugEvents
    (* setDebugEvents([]) *)
| SetShowDebugPanel (b : bool)
| SetSelectedRoom (language : option Language)
| SetToken (v : JsValue)
| SetLiveKitUrl (v : JsValue)
| AssignRoomRef (room : option Room)
    (* roomRef.current = room *)
| RoomDisconnect
    (* roomRef.current.disconnect() *)
| FetchToken (room identity : jsstring)
    (* fetch(`${tokenServerUrl}/api/token`, POST { room, identity }) *)
| AlertJoinFailed (cause : JoinFailure).
    (* alert(`连接房间失败: ${error.message}。...`) *)

Definition withUI (p : Page) (st : UI) : Page :=
  mkPage st (roomRefCurrent p) (selectedRoom p) (token p) (liveKitUrl p)
         (showDebugPanel p).

Definition reducePage (p : Page) (a : PageAction) : Page :=
  match a with
  | OnUI a' => withUI p (reduce (ui p) a')
  | SetIsConnected b =>
      withUI p (mkUI b (isTranslating (ui p)) (subtitle (ui p))
                     (partialSubtitle (ui p)) (finalSubtitle (ui p))
                     (agentParticipant (ui p)) (debugEvents (ui p)))
  | ClearDebugEvents =>
      withUI p (mkUI (isConnected (ui p)) (isTranslating (ui p))
                     (subtitle (ui p)) (partialSubtitle (ui p))
                     (finalSubtitle (ui p)) (agentParticipant (ui p)) [])
  | SetShowDebugPanel b =>
      mkPage (ui p) (roomRefCurrent p) (selectedRoom p) (token p)
             (liveKitUrl p) b
  | SetSelectedRoom language =>
      mkPage (ui p) (roomRefCurrent p) language (token p) (liveKitUrl p)
             (showDebugPanel p)
  | SetToken v =>
      mkPage (ui p) (roomRefCurrent p) (selectedRoom p) v (liveKitUrl p)
             (showDebugPanel p)
  | SetLiveKitUrl v =>
      mkPage (ui p) (roomRefCurrent p) (selectedRoom p) (token p) v
             (showDebugPanel p)
  | AssignRoomRef room =>
      mkPage (ui p) room (selectedRoom p) (token p) (liveKitUrl p)
             (showDebugPanel p)
  | RoomDisconnect | FetchToken _ _ | AlertJoinFailed _ => p
  end.

Definition runPage (acts : list PageAction) (p : Page) : Page :=
  fold_left reducePage acts p.

(** [`listener-${Date.now()}`], the identity that [joinRoom] asks a token
    for. *)
Definition joinIdentity (now : JsNumber) : jsstring :=
  lit "listener-" ++ number_text now.

(** [`flutter-listener-${DateTime.now().millisecondsSinceEpoch}`], the
    participant name that the Flutter client asks a token for. *)
Definition flutterIdentity (now : JsNumber) : jsstring :=
  lit "flutter-listener-" ++ number_text now.

(** How the token request settles: [fetch] rejects, or there is a response
    with [response.ok], [response.status] and what [response.json()] gives
    (the parsed body, or the message of the error it rejects with). *)
Inductive FetchOutcome : Type :=
| FetchRejected (message : jsstring)
| FetchResponse (ok : bool) (status : jsstring) (body : JsValue + jsstring).

(** [joinRoom(language)]; [now] is [Date.now()]. *)
Definition joinRoom (language : Language) (now : JsNumber)
    (outcome : FetchOutcome) : list PageAction :=
  FetchToken (roomName language) (joinIdentity now)
  :: match outcome with
     | FetchRejected message => [AlertJoinFailed (Thrown message)]
     | FetchResponse false status _ => [AlertJoinFailed (HttpError status)]
     | FetchResponse true _ (inr message) =>
         [AlertJoinFailed (Thrown message)]
     | FetchResponse true _ (inl data) =>
         if nullish data then [AlertJoinFailed NoBody]
         else if truthy (member data "error") then
           [AlertJoinFailed (ServerError (member data "error"))]
         else
           [ SetToken (member data "token");
             SetLiveKitUrl (member data "livekit_url");
             SetSelectedRoom (Some language) ]
     end.

(** The effect of [LiveKitRoomComponents] once there is a room: the room is
    kept, the connection flag is set and the participants already there are
    replayed. *)
Definition roomConnected (room : Room) (participants : list Participant)
  : list PageAction :=
  AssignRoomRef (Some room)
  :: SetIsConnected true
  :: flat_map (fun participant =>
                 List.map OnUI
                          (actions (handleParticipantConnected participant)))
              participants.

(** The listener of [RoomEvent.ConnectionStateChanged]. *)
Definition connectionStateChanged (state : ConnectionState)
  : list PageAction :=
  match state with
  | Disconnected => [SetIsConnected false; OnUI (SetAgentParticipant None)]
  | Connecting | Connected | Reconnecting => []
  end.

(** [disconnect()] *)
Definition disconnect (p : Page) : list PageAction :=
  match roomRefCurrent p with
  | Some _ => [RoomDisconnect; AssignRoomRef None]
  | None => []
  end
  ++ [ SetSelectedRoom None;
       SetToken (JString []);
       SetIsConnected false;
       OnUI (SetAgentParticipant None);
       OnUI (SetSubtitle []);
       OnUI (SetPartialSubtitle []);
       OnUI (SetFinalSubtitle []);
       ClearDebugEvents;
       SetShowDebugPanel false;
       OnUI (SetIsTranslating false) ].

Definition is_room_call (a : PageAction) : bool :=
  match a with
  | RoomDisconnect => true
  | _ => false
  end.

(** The RPC variant of the page displays what arrives without caption
    tiers. *)
Module RpcPage.

(** [handleDataReceived(e)] of the RPC variant: every path through it calls
    [setSubtitle] exactly once, and this is the value it is called with.  A
    payload that parses to [null] makes the read of [jsonData.type] throw,
    which lands in the [catch (parseError)] arm like a payload that is not
    JSON. *)
Definition handleDataReceived (e : DataEvent) : JsValue :=
  let message := decoded (payload e) in
  match parsed (payload e) with
  | Some jsonData =>
      if nullish jsonData then JString message
      else if strict_eq_string (member jsonData "type") (lit "translation")
              || strict_eq_string (member jsonData "type") (lit "transcript")
      then js_or (js_or (member jsonData "text") (member jsonData "content"))
                 (JString message)
      else JString message
  | None => JString message
  end.

End RpcPage.

(* ===================================================================== *)
(** ** The translation page of the Flutter client *)
(* ===================================================================== *)

Module FlutterPage.

(** ['等待连接...'] *)
Definition label_waiting : jsstring :=
  [31561; 24453; 36830; 25509; 46; 46; 46]%N.

(** ['已连接，等待翻译代理...'] *)
Definition label_connected : jsstring :=
  [24050; 36830; 25509; 65292; 31561; 24453; 32763; 35793; 20195; 29702;
   46; 46; 46]%N.

(** ['已断开连接'] *)
Definition label_disconnected : jsstring :=
  [24050; 26029; 24320; 36830; 25509]%N.

(** ['连接失败: '] *)
Definition label_failed : jsstring :=
  [36830; 25509; 22833; 36133; 58; 32]%N.

(** ['已找到翻译代理'] *)
Definition label_found : jsstring :=
  [24050; 25214; 21040; 32763; 35793; 20195; 29702]%N.

(** ['正在倾听...'] *)
Definition label_listening : jsstring :=
  [27491; 22312; 20542; 21548; 46; 46; 46]%N.

(** ['正在翻译...'] *)
Definition label_thinking : jsstring :=
  [27491; 22312; 32763; 35793; 46; 46; 46]%N.

(** ['正在播放...'] *)
Definition label_speaking : jsstring :=
  [27491; 22312; 25773; 25918; 46; 46; 46]%N.

(** The fields of [_TranslationPageState] that the handlers assign. *)
Record State : Type := mkState {
  _agent : option Participant;
  _subtitle : jsstring;
  _agentState : jsstring;
  _isConnected : bool
}.

Definition initialState : State := mkState None [] label_waiting false.

(** The argument of [_handleDataMessage]: something that is not a
    [Uint8List], bytes that [utf8.decode] rejects, or bytes with their text
    and with what [jsonDecode] gives for the text ([None] when it throws). *)
Inductive DartMessage : Type :=
| NotBytes
| Malformed
| Text (text : jsstring) (json : option JsValue).

Inductive DartOutcome : Type :=
| Returned
| Uncaught.

(** [_handleParticipant(participant)] *)
Definition _handleParticipant (participant : Participant) (st : State)
  : State :=
  if includes (identity participant) (lit "translator")
  then mkState (Some participant) (_subtitle st) label_found
               (_isConnected st)
  else st.

(** The closure given to [setState] in the [try] block of
    [_handleDataMessage]; [None] when it throws: [data] is not a map, or a
    value that is not a string is assigned to a [String] field. *)
Definition assignFromJson (data : JsValue) (st : State) : option State :=
  match data with
  | JObject _ =>
      let type := member data "type" in
      let shown :=
        if strict_eq_string type (lit "transcript")
           || strict_eq_string type (lit "translation")
        then
          match member data "text" with
          | JUndefined | JNull => Some []
          | JString s => Some s
          | _ => None
          end
        else Some (_subtitle st) in
      match shown with
      | None => None
      | Some subtitle' =>
          match member data "state" with
          | JUndefined | JNull =>
              Some (mkState (_agent st) subtitle' (_agentState st)
                            (_isConnected st))
          | JString s =>
              Some (mkState (_agent st) subtitle'
                      (if JsString.eqb s (lit "listening") then
                         label_listening
                       else if JsString.eqb s (lit "thinking") then
                         label_thinking
                       else if JsString.eqb s (lit "speaking") then
                         label_speaking
                       else s)
                      (_isConnected st))
          | _ => None
          end
      end
  | _ => None
  end.

(** [_handleDataMessage(message)]: the [catch] arm decodes the bytes again
    and displays the text. *)
Definition _handleDataMessage (message : DartMessage) (st : State)
  : State * DartOutcome :=
  match message with
  | NotBytes => (st, Returned)
  | Malformed => (st, Uncaught)
  | Text text json =>
      match match json with
            | Some data => assignFromJson data st
            | None => None
            end with
      | Some st' => (st', Returned)
      | None =>
          (mkState (_agent st) text (_agentState st) (_isConnected st),
           Returned)
      end
  end.

(** What happens to the page. *)
Inductive Event : Type :=
| ConnectSucceeded (participants : list Participant)
| ConnectFailed (error : jsstring)
| RoomDisconnected
| ParticipantConnected (participant : Participant)
| DataMessage (message : DartMessage).

Definition step (st : State) (event : Event) : State :=
  match event with
  | ConnectSucceeded participants =>
      fold_left (fun s p => _handleParticipant p s) participants
                (mkState (_agent st) (_subtitle st) label_connected true)
  | ConnectFailed error =>
      mkState (_agent st) (_subtitle st) (label_failed ++ error)
              (_isConnected st)
  | RoomDisconnected =>
      mkState (_agent st) (_subtitle st) label_disconnected false
  | ParticipantConnected participant => _handleParticipant participant st
  | DataMessage message => fst (_handleDataMessage message st)
  end.

Definition steps (events : list Event) (st : State) : State :=
  fold_left step events st.

(** An element of [_audioLevelStream]: [None] stands for [0.0], and
    [Some k] for [0.3 + 0.7 * k / 10] with [k = count % 10]. *)
Definition audioLevel (st : State) (count : nat) : option nat :=
  if _isConnected st && JsString.eqb (_agentState st) (lit "speaking")
  then Some (count mod 10)
  else None.

End FlutterPage.

(** The agent state of the Flutter page is not the word "speaking". *)
Definition not_speaking (st : FlutterPage.State) : Prop :=
  JsString.eqb (FlutterPage._agentState st) (lit "speaking") = false.

(** Further sample inputs. *)
Module Cases.


(** The payload [{"type":"transcript","text":"hello"}]. *)
Definition transcript : DataEvent :=
  Sample.json (lit "{" ++ Sample.quote "type" ++ lit ":"
               ++ Sample.quote "transcript" ++ lit ","
               ++ Sample.quote "text" ++ lit ":" ++ Sample.quote "hello"
               ++ lit "}")
              (Sample.object
                 [ ("type"%string, JString (lit "transcript"));
                   ("text"%string, JString (lit "hello")) ])
              None.

(** The payload [{"type":"translation","text":"","content":"hi"}]. *)
Definition translationByContent : JsValue :=
  Sample.object [ ("type"%string, JString (lit "translation"));
                  ("text"%string, JString []);
                  ("content"%string, JString (lit "hi")) ].

(** The payload [{"type":"translation","text":"hello"}]. *)
Definition translation : DataEvent :=
  Sample.json (lit "{" ++ Sample.quote "type" ++ lit ":"
               ++ Sample.quote "translation" ++ lit ","
               ++ Sample.quote "text" ++ lit ":" ++ Sample.quote "hello"
               ++ lit "}")
              (Sample.object
                 [ ("type"%string, JString (lit "translation"));
                   ("text"%string, JString (lit "hello")) ])
              None.

(** The Flutter message [{"type":"translation","state":"speaking"}]: no
    text. *)
Definition speakingWithoutText : FlutterPage.DartMessage :=
  FlutterPage.Text
    (lit "{" ++ Sample.quote "type" ++ lit ":" ++ Sample.quote "translation"
     ++ lit "," ++ Sample.quote "state" ++ lit ":" ++ Sample.quote "speaking"
     ++ lit "}")
    (Some (Sample.object
             [ ("type"%string, JString (lit "translation"));
               ("state"%string, JString (lit "speaking")) ])).

(** A Flutter page that shows a subtitle. *)
Definition flutterBusy : FlutterPage.State :=
  FlutterPage.mkState (Some Sample.translator42) (lit "earlier")
                      FlutterPage.label_found true.

(** The last entry of the [languages] table, its flag left out. *)
Definition malay : Language :=
  mkLanguage (lit "Bahasa Melayu") [] [39532%N; 26469%N; 35821%N]
             (lit "malay") (lit "Pryme-Malay").

(** A body of the token server:
    [{"token":"abc","livekit_url":"wss://example.test"}]. *)
Definition tokenBody : JsValue :=
  Sample.object [ ("token"%string, JString (lit "abc"));
                  ("livekit_url"%string, JString (lit "wss://example.test")) ].

(** A body by which the token server refuses:
    [{"error":"room not found"}]. *)
Definition errorBody : JsValue :=
  Sample.object [ ("error"%string, JString (lit "room not found")) ].

(** A text of 120 code units: the letter a, 120 times. *)
Definition longText : jsstring := repeat 97%N 120.

(** A state that a status event left: a status line over empty partial and
    final texts. *)
Definition statusUI : UI :=
  mkUI true true (status_prefix ++ lit "started") [] [] None [].

End Cases.

(* ===================================================================== *)
(** * Properties *)
(* ===================================================================== *)

Arguments lit : simpl never.

(** ** Strings *)

Lemma eqb_eq (a b : jsstring) : JsString.eqb a b = true <-> a = b.
Proof.
  revert b. induction a as [|c a IH]; intros [|d b]; cbn; split;
    try congruence; try reflexivity.
  - intros H. apply andb_true_iff in H as [Hc Hr].
    apply N.eqb_eq in Hc. apply IH in Hr. now subst.
  - intros H. injection H as -> ->.
    rewrite N.eqb_refl. cbn. now apply IH.
Qed.

Lemma eqb_refl (a : jsstring) : JsString.eqb a a = true.
Proof. now apply eqb_eq. Qed.

Lemma is_empty_true (s : jsstring) : is_empty s = true <-> s = [].
Proof. destruct s; cbn; split; congruence. Qed.

Lemma trimStart_head (s r : jsstring) (c : N) :
  trimStart s = c :: r -> is_whitespace c = false.
Proof.
  induction s as [|d s IH]; cbn; [discriminate|].
  destruct (is_whitespace d) eqn:Hd; [exact IH|].
  intros H. injection H as <- _. exact Hd.
Qed.

Lemma trimStart_blank (s : jsstring) :
  trimStart s = [] <-> forallb is_whitespace s = true.
Proof.
  induction s as [|c s IH]; cbn; [tauto|].
  destruct (is_whitespace c); cbn; [exact IH|].
  split; discriminate.
Qed.

Lemma forallb_rev {A : Type} (f : A -> bool) (l : list A) :
  forallb f (rev l) = forallb f l.
Proof.
  induction l as [|x l IH]; cbn; [reflexivity|].
  rewrite forallb_app, IH. cbn. rewrite andb_true_r. apply andb_comm.
Qed.

(** [trim] leaves nothing exactly of the strings made of white space. *)
Lemma trim_blank (s : jsstring) :
  trim s = [] <-> forallb is_whitespace s = true.
Proof.
  unfold trim, trimEnd. split.
  - intros H.
    assert (Hr : trimStart (rev (trimStart s)) = []).
    { destruct (trimStart (rev (trimStart s))) as [|x l]; [reflexivity|].
      cbn in H. apply app_eq_nil in H as [_ H]. discriminate. }
    apply trimStart_blank in Hr. rewrite forallb_rev in Hr.
    destruct (trimStart s) as [|c r] eqn:Hs.
    + now apply trimStart_blank.
    + apply trimStart_head in Hs. cbn in Hr. now rewrite Hs in Hr.
  - intros H. apply trimStart_blank in H. now rewrite H.
Qed.

Lemma punctuation_test_single (c : N) :
  punctuation_test [c] = true <-> In c kept_punctuation.
Proof.
  unfold punctuation_test, is_kept_punctuation. cbn [existsb].
  rewrite orb_false_r, existsb_exists. split.
  - intros (x & Hin & Hx). apply N.eqb_eq in Hx. now subst.
  - intros H. exists c. split; [exact H | apply N.eqb_refl].
Qed.

Lemma startsWith_spec (sub s : jsstring) :
  startsWith sub s = true <-> exists post, s = sub ++ post.
Proof.
  revert s. induction sub as [|c sub IH]; intros s; cbn.
  - split; [intros _; now exists s | reflexivity].
  - destruct s as [|d s].
    + split; [discriminate | intros (post & H); discriminate].
    + rewrite andb_true_iff, N.eqb_eq, IH. split.
      * intros (-> & post & ->). now exists post.
      * intros (post & H). injection H as -> ->. split; [reflexivity|].
        now exists post.
Qed.

(** [includes] finds exactly the contiguous occurrences. *)
Lemma includes_spec (s sub : jsstring) :
  includes s sub = true <-> exists pre post, s = pre ++ sub ++ post.
Proof.
  induction s as [|d s IH].
  - cbn. rewrite orb_false_r, startsWith_spec. split.
    + intros (post & H). now exists [], post.
    + intros (pre & post & H). exists post.
      destruct pre; [exact H | discriminate].
  - cbn [includes]. rewrite orb_true_iff, startsWith_spec, IH. split.
    + intros [(post & H) | (pre & post & H)].
      * now exists [], post.
      * exists (d :: pre), post. cbn. now rewrite H.
    + intros (pre & post & H). destruct pre as [|x pre].
      * left. now exists post.
      * right. injection H as _ H. now exists pre, post.
Qed.

(** ** The event history *)

Lemma firstn_app_firstn {A : Type} (n : nat) (a b : list A) :
  firstn n (a ++ firstn n b) = firstn n (a ++ b).
Proof.
  rewrite !firstn_app, firstn_firstn.
  f_equal. f_equal. lia.
Qed.

Lemma insertAll_debugEvents (entries : list EventInfo) (st : UI) :
  List.length (debugEvents st) <= 20 ->
  debugEvents (insertAll entries st)
  = firstn 20 (rev entries ++ debugEvents st).
Proof.
  revert st. induction entries as [|i rest IH]; intros st Hst.
  - unfold insertAll. cbn [fold_left rev app]. symmetry. now apply firstn_all2.
  - unfold insertAll. cbn [fold_left].
    fold (insertAll rest (reduce st (SetDebugEvents i))).
    rewrite IH.
    + cbn [reduce debugEvents rev]. rewrite <- app_assoc. cbn [app].
      apply (firstn_app_firstn 20 (rev rest) (i :: debugEvents st)).
    + cbn [reduce debugEvents]. apply firstn_le_length.
Qed.

(** C8: the event history holds at most twenty entries, newest first; from
    a history within the bound, inserting entries leaves the twenty newest
    of the inserted and the earlier ones, and inserting twenty-five entries
    into the empty history leaves exactly the last twenty inserted, newest
    first, the first five being evicted. *)
Theorem debugEvents_keeps_newest_twenty :
  (forall (entries : list EventInfo) (st : UI),
      List.length (debugEvents st) <= 20 ->
      debugEvents (insertAll entries st)
      = firstn 20 (rev entries ++ debugEvents st)
      /\ List.length (debugEvents (insertAll entries st)) <= 20)
  /\ (forall entries : list EventInfo,
         List.length entries = 25 ->
         debugEvents (insertAll entries initialUI) = rev (skipn 5 entries)
         /\ List.length (debugEvents (insertAll entries initialUI)) = 20).
Proof.
  split.
  - intros entries st Hst. rewrite (insertAll_debugEvents entries st Hst).
    split; [reflexivity | apply firstn_le_length].
  - intros entries Hlen.
    rewrite insertAll_debugEvents by (cbn; lia).
    cbn [initialUI debugEvents]. rewrite app_nil_r.
    assert (Hsplit : rev entries = rev (skipn 5 entries) ++ rev (firstn 5 entries)).
    { rewrite <- rev_app_distr, firstn_skipn. reflexivity. }
    assert (Hkept : List.length (rev (skipn 5 entries)) = 20).
    { rewrite length_rev, length_skipn. lia. }
    rewrite Hsplit, firstn_app, Hkept, Nat.sub_diag, firstn_O, app_nil_r.
    rewrite firstn_all2 by (rewrite Hkept; lia).
    split; [reflexivity | exact Hkept].
Qed.

Lemma debugEvents_keeps_newest_twenty_witness :
  (debugEvents (insertAll Sample.entries25 Sample.busyUI)
   = firstn 20 (rev Sample.entries25 ++ debugEvents Sample.busyUI)
   /\ List.length (debugEvents (insertAll Sample.entries25 Sample.busyUI)) <= 20)
  /\ (debugEvents (insertAll Sample.entries25 initialUI)
      = rev (skipn 5 Sample.entries25)
      /\ List.length (debugEvents (insertAll Sample.entries25 initialUI)) = 20).
Proof.
  split.
  - apply (proj1 debugEvents_keeps_newest_twenty Sample.entries25 Sample.busyUI).
    cbn. lia.
  - apply (proj2 debugEvents_keeps_newest_twenty Sample.entries25).
    reflexivity.
Defined.

(** ** Caption handlers *)

Lemma truthy_or_false (v : JsValue) :
  truthy (js_or v (JBool false)) = truthy v.
Proof. unfold js_or. now destruct (truthy v) eqn:H. Qed.

(** The stream handler on a string text, as a list of setters. *)
Lemma handleTranslationStream_string (data : JsValue) (text : jsstring) :
  nullish data = false ->
  member data "text" = JString text ->
  handleTranslationStream data
  = (if Nat.eqb (List.length (trim text)) 0 then []
     else if Nat.eqb (List.length (trim text)) 1
             && negb (punctuation_test (trim text)) then []
     else if truthy (member data "is_final") then
       [SetFinalSubtitle text; SetPartialSubtitle []; SetSubtitle text]
     else
       [SetPartialSubtitle text; SetSubtitle (text ++ pending_indicator)],
     Normal tt).
Proof.
  intros Hn Ht. unfold handleTranslationStream, get. rewrite Hn, Ht.
  rewrite <- (truthy_or_false (member data "is_final")).
  destruct text as [|c text]; [reflexivity|].
  cbn -[trim punctuation_test].
  destruct (Nat.eqb (List.length (trim (c :: text))) 0); [reflexivity|].
  destruct (Nat.eqb (List.length (trim (c :: text))) 1
            && negb (punctuation_test (trim (c :: text)))); [reflexivity|].
  now destruct (truthy (js_or (member data "is_final") (JBool false))).
Qed.

Lemma discarded_dec (text : jsstring) :
  discarded text
  <-> Nat.eqb (List.length (trim text)) 0
      || Nat.eqb (List.length (trim text)) 1
         && negb (punctuation_test (trim text)) = true.
Proof.
  unfold discarded. rewrite <- trim_blank.
  destruct (trim text) as [|c [|d r]] eqn:Htrim; cbn -[punctuation_test].
  - split; [reflexivity | now left].
  - destruct (punctuation_test [c]) eqn:Hp; cbn.
    + apply punctuation_test_single in Hp. split; [|discriminate].
      intros [H | (x & Hx & Hnot)]; [discriminate|].
      injection Hx as <-. contradiction.
    + split; [reflexivity|]. intros _. right. exists c. split; [reflexivity|].
      intros Hin. apply punctuation_test_single in Hin. congruence.
  - split; [|discriminate].
    intros [H | (x & Hx & _)]; discriminate.
Qed.

(** C3: a stream event whose text is empty or white space only, or trims to
    exactly one character (one UTF-16 code unit, what the JavaScript length
    counts) outside the full-width punctuation class, leaves the state as it
    was; any other stream event, when final, stores its text as the final
    text, empties the partial text and displays the text, and when not final
    stores its text as the partial text and displays it followed by the
    pending indicator. *)
Theorem handleTranslationStream_filters_then_sets
    (data : JsValue) (text : jsstring) (st : UI) :
  nullish data = false ->
  member data "text" = JString text ->
  (discarded text -> run (handleTranslationStream data) st = st)
  /\ (~ discarded text ->
      truthy (member data "is_final") = true ->
      run (handleTranslationStream data) st = setCaption st text [] text)
  /\ (~ discarded text ->
      truthy (member data "is_final") = false ->
      run (handleTranslationStream data) st
      = setCaption st (text ++ pending_indicator) text (finalSubtitle st)).
Proof.
  intros Hn Ht. rewrite (handleTranslationStream_string data Hn Ht).
  pose proof (discarded_dec text) as Hd.
  destruct (Nat.eqb (List.length (trim text)) 0) eqn:H0; cbn [orb] in Hd.
  - repeat split; intros; solve [reflexivity | exfalso; tauto].
  - destruct (Nat.eqb (List.length (trim text)) 1
              && negb (punctuation_test (trim text))) eqn:H1.
    + repeat split; intros; solve [reflexivity | exfalso; tauto].
    + repeat split.
      * intros H. apply Hd in H. discriminate.
      * intros _ ->. reflexivity.
      * intros _ ->. reflexivity.
Qed.

Lemma handleTranslationStream_filters_then_sets_witness :
  run (handleTranslationStream (Sample.stream Sample.fullwidth_comma false))
      Sample.busyUI
  = setCaption Sample.busyUI (Sample.fullwidth_comma ++ pending_indicator)
               Sample.fullwidth_comma (lit "fin")
  /\ run (handleTranslationStream (Sample.stream (lit "a") false))
         Sample.busyUI
     = Sample.busyUI.
Proof.
  split.
  - apply (handleTranslationStream_filters_then_sets
             (Sample.stream Sample.fullwidth_comma false)
             (text := Sample.fullwidth_comma) Sample.busyUI);
      try reflexivity.
    intros [H | (c & Hc & Hnot)]; [discriminate|].
    injection Hc as <-. apply Hnot. vm_compute. tauto.
  - apply (handleTranslationStream_filters_then_sets
             (Sample.stream (lit "a") false) (text := lit "a") Sample.busyUI);
      try reflexivity.
    right. exists 97%N. split; [reflexivity|].
    vm_compute. intuition discriminate.
Defined.

(** The length test counts code units: a character outside the Basic
    Multilingual Plane (here U+1F600, two code units) is not a one-unit
    fragment and is displayed. *)
Example surrogate_pair_is_displayed :
  run (handleTranslationStream (Sample.stream [55357; 56832]%N false))
      initialUI
  = setCaption initialUI ([55357; 56832]%N ++ pending_indicator)
               [55357; 56832]%N [].
Proof. reflexivity. Qed.

Lemma js_or_string (s : jsstring) :
  js_or (JString s) (JString []) = JString s.
Proof. now destruct s. Qed.

Lemma js_or_optionalString (s : option jsstring) :
  js_or (optionalString s) (JString [])
  = JString (match s with Some t => t | None => [] end).
Proof. now destruct s as [[|c t]|]. Qed.

(** The status handler on string members, as a list of setters. *)
Lemma handleTranslationStatus_string
    (data : JsValue) (status : jsstring) (language : option jsstring) :
  nullish data = false ->
  member data "status" = JString status ->
  member data "language" = optionalString language ->
  handleTranslationStatus data
  = (SetSubtitle (statusLine status language)
     :: (if JsString.eqb status (lit "stopped")
         then [SetPartialSubtitle []; SetFinalSubtitle []] else []),
     Normal tt).
Proof.
  intros Hn Hs Hl. unfold handleTranslationStatus, get. rewrite Hn.
  cbn -[js_or template strict_eq_string truthy lit status_prefix app member].
  rewrite Hs, Hl, js_or_string, js_or_optionalString.
  unfold statusLine.
  destruct language as [[|c l]|]; cbn -[JsString.eqb lit status_prefix app];
    destruct (JsString.eqb status (lit "stopped"));
    rewrite ?app_nil_r; reflexivity.
Qed.

(** C4: a status event displays the status line, made of the status and,
    when a language is given, the language in parentheses; when the status
    is "stopped" the partial and the final text are emptied, and otherwise
    they are kept. *)
Theorem handleTranslationStatus_sets_status_line
    (data : JsValue) (status : jsstring) (language : option jsstring)
    (st : UI) :
  nullish data = false ->
  member data "status" = JString status ->
  member data "language" = optionalString language ->
  (status = lit "stopped" ->
   run (handleTranslationStatus data) st
   = setCaption st (statusLine status language) [] [])
  /\ (status <> lit "stopped" ->
      run (handleTranslationStatus data) st
      = setCaption st (statusLine status language)
                   (partialSubtitle st) (finalSubtitle st)).
Proof.
  intros Hn Hs Hl.
  rewrite (handleTranslationStatus_string data language Hn Hs Hl).
  destruct (JsString.eqb status (lit "stopped")) eqn:He.
  - apply eqb_eq in He. split; [reflexivity | contradiction].
  - split; [|reflexivity].
    intros Heq. apply eqb_eq in Heq. congruence.
Qed.

Lemma handleTranslationStatus_sets_status_line_witness :
  run (handleTranslationStatus (Sample.status "stopped" (Some "ko"%string)))
      Sample.busyUI
  = setCaption Sample.busyUI
               (status_prefix ++ lit "stopped" ++ lit " (ko)") [] []
  /\ run (handleTranslationStatus (Sample.status "started" None))
         Sample.busyUI
     = setCaption Sample.busyUI (status_prefix ++ lit "started")
                  (lit "par") (lit "fin").
Proof.
  split.
  - apply (handleTranslationStatus_sets_status_line
             (Sample.status "stopped" (Some "ko"%string))
             (status := lit "stopped") (Some (lit "ko")) Sample.busyUI);
      reflexivity.
  - apply (handleTranslationStatus_sets_status_line
             (Sample.status "started" None)
             (status := lit "started") None Sample.busyUI);
      try reflexivity.
    intros H. vm_compute in H. discriminate.
Defined.

(** ** The data handler *)

Lemma plainText_normal (message : jsstring) :
  plainText message = (actions (plainText message), Normal tt).
Proof.
  unfold plainText.
  now destruct (negb (is_empty message) && negb (is_empty (trim message))).
Qed.

(** A handler guarded by the plain-text arm finishes normally. *)
Lemma catch_plainText_normal (handler : Js unit) (message : jsstring) :
  catch handler (fun _ => plainText message)
  = (actions (catch handler (fun _ => plainText message)), Normal tt).
Proof.
  destruct handler as [done [[]|err]]; cbn -[plainText]; [reflexivity|].
  rewrite (plainText_normal message). reflexivity.
Qed.

Lemma apply_normal (message : jsstring) (event : InboundEvent) :
  apply message event = (actions (apply message event), Normal tt).
Proof.
  destruct event as [data|data|data|data|rawType text|text];
    cbn [apply]; try apply catch_plainText_normal.
  - destruct text as [| | | |t| |]; try reflexivity.
    now destruct (is_empty (trim t)).
  - apply plainText_normal.
Qed.

Lemma get_member (v : JsValue) (key : string) :
  nullish v = false -> get v key = ([], Normal (member v key)).
Proof. intros H. unfold get. now rewrite H. Qed.

Lemma get_nullish (v : JsValue) (key : string) :
  nullish v = true -> get v key = ([], Throw TypeError).
Proof. intros H. unfold get. now rewrite H. Qed.

Ltac case_plainText message :=
  unfold plainText;
  destruct (negb (is_empty message) && negb (is_empty (trim message)));
  reflexivity.

Ltac case_handler handler message :=
  cbn [apply]; destruct handler as [? [[]|?]]; cbn -[trim];
  [reflexivity | case_plainText message].

Ltac case_dispatch jsonData message :=
  destruct (strict_eq_string (member jsonData "type")
                             (lit "translation_stream"));
  [case_handler (handleTranslationStream jsonData) message|];
  destruct (strict_eq_string (member jsonData "type") (lit "translation"));
  [case_handler (handleTranslation jsonData) message|];
  destruct (strict_eq_string (member jsonData "type") (lit "transcript"));
  [case_handler (handleTranscript jsonData) message|];
  destruct (strict_eq_string (member jsonData "type")
                             (lit "translation_status"));
  [case_handler (handleTranslationStatus jsonData) message|].

(** The data handler logs the sender twice, inserts the history entry of a
    structured payload, and runs the arm that [decode] names; it always
    finishes normally. *)
Lemma handleDataReceived_shape (now : jsstring) (e : DataEvent) :
  handleDataReceived now e
  = ([ConsoleLog (sender e); ConsoleLog (sender e)]
     ++ traceInsert now (payload e)
     ++ actions (apply (decoded (payload e)) (decode (payload e))),
     Normal tt).
Proof.
  destruct e as [[message [jsonData|]] who].
  - unfold handleDataReceived, JSON_parse, traceInsert, decode, structured.
    cbn [payload decoded parsed sender].
    destruct (nullish jsonData) eqn:Hn.
    + cbn -[get trim]. rewrite (get_nullish jsonData "type" Hn).
      cbn -[get trim]. case_plainText message.
    + cbn -[get handleTranslationStream handleTranslation handleTranscript
            handleTranslationStatus lit text_summary trim].
      rewrite !(get_member jsonData _ Hn). unfold eventInfoOf.
      destruct (member jsonData "text") as [| |b|n|t|items|members] eqn:Ht;
        cbn -[handleTranslationStream handleTranslation handleTranscript
              handleTranslationStatus lit trim substring0];
        rewrite ?Ht;
        cbn -[handleTranslationStream handleTranslation handleTranscript
              handleTranslationStatus lit trim substring0];
        try case_plainText message.
      * case_dispatch jsonData message. reflexivity.
      * case_dispatch jsonData message. reflexivity.
      * case_dispatch jsonData message.
        destruct t as [|c t]; [reflexivity|].
        cbn -[trim]. now destruct (is_empty (trim (c :: t))).
  - unfold handleDataReceived, JSON_parse, traceInsert, decode, structured.
    cbn -[trim]. case_plainText message.
Qed.

(** *** Handlers that only set caption fields *)

Section CaptionOnly.

Context {A B : Type}.

Lemma caption_only_ret (a : A) : caption_only (ret a : Js A).
Proof. constructor. Qed.

Lemma caption_only_raise (e : JsError) : caption_only (raise e : Js A).
Proof. constructor. Qed.

Lemma caption_only_bind (c : Js A) (f : A -> Js B) :
  caption_only c -> (forall a, caption_only (f a)) ->
  caption_only (bind c f).
Proof.
  unfold caption_only, actions. intros Hc Hf.
  destruct c as [done [a|e]]; cbn in *; [|exact Hc].
  specialize (Hf a). destruct (f a) as [more r]. cbn in *.
  apply Forall_app. now split.
Qed.

Lemma caption_only_catch (c : Js A) (handler : JsError -> Js A) :
  caption_only c -> (forall e, caption_only (handler e)) ->
  caption_only (catch c handler).
Proof.
  unfold caption_only, actions. intros Hc Hh.
  destruct c as [done [a|e]]; cbn in *; [exact Hc|].
  specialize (Hh e). destruct (handler e) as [more r]. cbn in *.
  apply Forall_app. now split.
Qed.

End CaptionOnly.

Lemma caption_only_emit (a : Action) :
  is_caption_action a = true -> caption_only (emit a).
Proof. intros H. constructor; [exact H | constructor]. Qed.

Lemma caption_only_get (v : JsValue) (key : string) :
  caption_only (get v key).
Proof. unfold get. destruct (nullish v); constructor. Qed.

Lemma caption_only_string_receiver (v : JsValue) :
  caption_only (string_receiver v).
Proof. destruct v; constructor. Qed.

Lemma caption_only_template (v : JsValue) : caption_only (template v).
Proof. unfold template. destruct (ToString v); constructor. Qed.

Create HintDb caption discriminated.

#[local] Hint Resolve caption_only_ret caption_only_raise caption_only_get
  caption_only_string_receiver caption_only_template : caption.

Ltac caption_only_step :=
  match goal with
  | |- caption_only (bind _ _) => apply caption_only_bind; [|intro]
  | |- caption_only (catch _ _) => apply caption_only_catch; [|intro]
  | |- caption_only (emit _) => apply caption_only_emit; reflexivity
  | |- caption_only (if ?b then _ else _) => destruct b
  | |- caption_only _ => solve [auto with caption]
  end.

Ltac caption_only_tac := cbv zeta; repeat caption_only_step.

Lemma handleTranslationStream_caption_only (data : JsValue) :
  caption_only (handleTranslationStream data).
Proof. unfold handleTranslationStream. caption_only_tac. Qed.

Lemma handleTranslation_caption_only (data : JsValue) :
  caption_only (handleTranslation data).
Proof. unfold handleTranslation. caption_only_tac. Qed.

Lemma handleTranscript_caption_only (data : JsValue) :
  caption_only (handleTranscript data).
Proof. unfold handleTranscript. caption_only_tac. Qed.

Lemma handleTranslationStatus_caption_only (data : JsValue) :
  caption_only (handleTranslationStatus data).
Proof. unfold handleTranslationStatus. caption_only_tac. Qed.

Lemma plainText_caption_only (message : jsstring) :
  caption_only (plainText message).
Proof. unfold plainText. caption_only_tac. Qed.

#[local] Hint Resolve handleTranslationStream_caption_only
  handleTranslation_caption_only handleTranscript_caption_only
  handleTranslationStatus_caption_only plainText_caption_only : caption.

Lemma apply_caption_only (message : jsstring) (event : InboundEvent) :
  caption_only (apply message event).
Proof.
  destruct event as [data|data|data|data|rawType text|text]; cbn [apply];
    try solve [caption_only_tac].
  destruct text; caption_only_tac.
Qed.

(** *** Decode, trace, apply *)

Lemma caption_is_not_console (a : Action) :
  is_caption_action a = true -> negb (is_console a) = true.
Proof. now destruct a. Qed.

Lemma effects_caption_only {A : Type} (c : Js A) :
  caption_only c ->
  filter (fun a => negb (is_console a)) (actions c) = actions c.
Proof.
  unfold caption_only. induction 1 as [|a l Ha _ IH]; cbn; [reflexivity|].
  now rewrite (caption_is_not_console a Ha), IH.
Qed.

Lemma handleDataReceived_effects (now : jsstring) (e : DataEvent) :
  effects (handleDataReceived now e)
  = traceInsert now (payload e)
    ++ actions (apply (decoded (payload e)) (decode (payload e))).
Proof.
  unfold effects. rewrite handleDataReceived_shape.
  cbn [actions fst app filter is_console negb].
  rewrite filter_app, effects_caption_only by apply apply_caption_only.
  f_equal. unfold traceInsert. now destruct (structured (payload e)).
Qed.

(** C6 (as the code has it): the data handler finishes normally for every
    payload; a structured payload (JSON other than null whose text is a
    string or missing) has its entry inserted into the event history first
    and the caption arm of its variant run after that; any other payload
    reaches the caption arm only and is never inserted into the history. *)
Theorem handleDataReceived_trace_before_apply
    (now : jsstring) (e : DataEvent) :
  completion (handleDataReceived now e) = Normal tt
  /\ caption_only (apply (decoded (payload e)) (decode (payload e)))
  /\ effects (handleDataReceived now e)
     = match structured (payload e) with
       | Some jsonData =>
           SetDebugEvents (eventInfoOf now jsonData)
           :: actions (apply (decoded (payload e)) (decode (payload e)))
       | None => actions (apply (decoded (payload e)) (decode (payload e)))
       end.
Proof.
  split; [|split].
  - now rewrite handleDataReceived_shape.
  - apply apply_caption_only.
  - rewrite handleDataReceived_effects. unfold traceInsert.
    now destruct (structured (payload e)).
Qed.

(** C6, counterexample: the plain-text payload [hello] is displayed but no
    entry for it is inserted into the event history; and for a stream event
    the insertion into the history comes before the caption setters, not
    after them. *)
Lemma plain_text_skips_the_history :
  (forall info,
      ~ In (SetDebugEvents info)
           (actions (handleDataReceived (lit "12:00") Sample.hello)))
  /\ subtitle (run (handleDataReceived (lit "12:00") Sample.hello) initialUI)
     = lit "hello"
  /\ debugEvents (run (handleDataReceived (lit "12:00") Sample.hello)
                      initialUI) = []
  /\ effects (handleDataReceived (lit "12:00") (Sample.comma None))
     = [ SetDebugEvents
           (eventInfoOf (lit "12:00")
                        (Sample.stream Sample.fullwidth_comma false));
         SetPartialSubtitle Sample.fullwidth_comma;
         SetSubtitle (Sample.fullwidth_comma ++ pending_indicator) ].
Proof.
  repeat split; try reflexivity.
  intros info Hin. vm_compute in Hin.
  repeat (destruct Hin as [Hin | Hin]; [discriminate|]). exact Hin.
Qed.

(** C7: decoding is total and deterministic: for every payload the data
    handler finishes normally (nothing is thrown to the caller), it does
    what the one variant that [decode] gives for the payload prescribes, and
    payloads that are equal decode to equal events whatever the sender and
    the time. *)
Theorem decode_total_deterministic (now : jsstring) (e : DataEvent) :
  completion (handleDataReceived now e) = Normal tt
  /\ (exists! event : InboundEvent,
         decode (payload e) = event
         /\ effects (handleDataReceived now e)
            = traceInsert now (payload e)
              ++ actions (apply (decoded (payload e)) event))
  /\ (forall e' : DataEvent,
         payload e' = payload e -> decode (payload e') = decode (payload e)).
Proof.
  split; [|split].
  - now rewrite handleDataReceived_shape.
  - exists (decode (payload e)). split.
    + split; [reflexivity | apply handleDataReceived_effects].
    + now intros event [H _].
  - now intros e' ->.
Qed.

Lemma decode_total_deterministic_witness :
  completion (handleDataReceived (lit "12:00") (Sample.comma None))
  = Normal tt
  /\ decode (payload (Sample.comma (Some "listener-7"%string)))
     = decode (payload (Sample.comma None)).
Proof.
  destruct (decode_total_deterministic (lit "12:00") (Sample.comma None))
    as (Hnormal & _ & Hsame).
  split; [exact Hnormal|].
  apply (Hsame (Sample.comma (Some "listener-7"%string))). reflexivity.
Defined.

Lemma run_handleDataReceived (now : jsstring) (e : DataEvent) (st : UI) :
  run (handleDataReceived now e) st
  = fold_left reduce
      (actions (apply (decoded (payload e)) (decode (payload e))))
      (fold_left reduce (traceInsert now (payload e)) st).
Proof.
  unfold run. rewrite handleDataReceived_shape. cbn [actions fst].
  now rewrite !fold_left_app.
Qed.

Lemma caption_traceInsert (now : jsstring) (p : Payload) (st : UI) :
  caption (fold_left reduce (traceInsert now p) st) = caption st.
Proof. unfold traceInsert. now destruct (structured p). Qed.

(** Caption setters act on the caption fields alone. *)
Lemma caption_fold (acts : list Action) (s1 s2 : UI) :
  Forall (fun a => is_caption_action a = true) acts ->
  caption s1 = caption s2 ->
  caption (fold_left reduce acts s1) = caption (fold_left reduce acts s2).
Proof.
  intros Hacts. revert s1 s2.
  induction Hacts as [|a l Ha _ IH]; intros s1 s2 Heq; [exact Heq|].
  cbn [fold_left]. apply IH.
  unfold caption in *. injection Heq as H1 H2 H3.
  destruct a; try discriminate Ha; cbn; congruence.
Qed.

(** C10: the caption state after a data message depends on the payload and
    the state before it, not on who sent the message (nor on the time of
    arrival); with the same time of arrival the whole state is the same. *)
Theorem caption_independent_of_sender
    (now1 now2 : jsstring) (e1 e2 : DataEvent) (st : UI) :
  payload e1 = payload e2 ->
  caption (run (handleDataReceived now1 e1) st)
  = caption (run (handleDataReceived now2 e2) st)
  /\ run (handleDataReceived now1 e1) st
     = run (handleDataReceived now1 e2) st.
Proof.
  intros Hp. rewrite !run_handleDataReceived, Hp. split; [|reflexivity].
  apply caption_fold; [apply apply_caption_only|].
  now rewrite !caption_traceInsert.
Qed.

Lemma caption_independent_of_sender_witness :
  caption (run (handleDataReceived (lit "12:00")
                  (Sample.comma (Some "translator-42"%string)))
               Sample.busyUI)
  = caption (run (handleDataReceived (lit "12:01")
                    (Sample.comma (Some "listener-7"%string)))
                 Sample.busyUI)
  /\ run (handleDataReceived (lit "12:00")
            (Sample.comma (Some "translator-42"%string))) Sample.busyUI
     = run (handleDataReceived (lit "12:00")
              (Sample.comma (Some "listener-7"%string))) Sample.busyUI.
Proof.
  apply (caption_independent_of_sender
           (lit "12:00") (lit "12:01")
           (Sample.comma (Some "translator-42"%string))
           (Sample.comma (Some "listener-7"%string)) Sample.busyUI).
  reflexivity.
Defined.

(** The sender is read all the same: it shows in the console output. *)
Remark sender_is_logged :
  actions (handleDataReceived (lit "12:00")
             (Sample.comma (Some "translator-42"%string)))
  <> actions (handleDataReceived (lit "12:00")
                (Sample.comma (Some "listener-7"%string))).
Proof. vm_compute. discriminate. Qed.

(** C5 (as the code has it): a structured payload whose type is none of the
    four recognized ones displays its text when the text is a string that is
    not blank, and displays the raw message otherwise; the partial and the
    final text are kept in both cases. *)
Theorem unknown_type_displays_text_or_message
    (now : jsstring) (e : DataEvent) (jsonData : JsValue) (st : UI) :
  structured (payload e) = Some jsonData ->
  recognized (member jsonData "type") = false ->
  caption (run (handleDataReceived now e) st)
  = (match member jsonData "text" with
     | JString t => if is_empty (trim t) then decoded (payload e) else t
     | _ => decoded (payload e)
     end,
     partialSubtitle st, finalSubtitle st).
Proof.
  intros Hs Hr. rewrite run_handleDataReceived.
  unfold traceInsert, decode. rewrite Hs.
  unfold recognized in Hr.
  apply orb_false_iff in Hr as [Hr H4].
  apply orb_false_iff in Hr as [Hr H3].
  apply orb_false_iff in Hr as [H1 H2].
  rewrite H1, H2, H3, H4. cbn [fold_left apply].
  destruct (member jsonData "text") as [| | | |t| |]; try reflexivity.
  now destruct (is_empty (trim t)).
Qed.

Lemma unknown_type_displays_text_or_message_witness :
  caption (run (handleDataReceived (lit "12:00") Sample.foo) Sample.busyUI)
  = (decoded (payload Sample.foo), lit "par", lit "fin").
Proof.
  apply (unknown_type_displays_text_or_message
           (lit "12:00") Sample.foo
           (jsonData := Sample.object [ ("type"%string, JString (lit "foo")) ])
           Sample.busyUI);
    reflexivity.
Defined.

(** C5, counterexample: the payload [{"type":"foo"}] has an unrecognized
    type and no text, and it is not ignored: the raw message is displayed. *)
Lemma unknown_type_without_text_is_displayed :
  recognized (member (Sample.object [ ("type"%string, JString (lit "foo")) ])
                     "type") = false
  /\ member (Sample.object [ ("type"%string, JString (lit "foo")) ]) "text"
     = JUndefined
  /\ caption (run (handleDataReceived (lit "12:00") Sample.foo) initialUI)
     <> caption initialUI
  /\ subtitle (run (handleDataReceived (lit "12:00") Sample.foo) initialUI)
     = decoded (payload Sample.foo).
Proof.
  repeat split; try reflexivity.
  vm_compute. discriminate.
Qed.

(** ** The caption invariant *)

Lemma structured_some (p : Payload) (jsonData : JsValue) :
  structured p = Some jsonData ->
  nullish jsonData = false
  /\ (nullish (member jsonData "text") = true
      \/ exists t, member jsonData "text" = JString t).
Proof.
  unfold structured. destruct (parsed p) as [v|]; [|discriminate].
  destruct (nullish v) eqn:Hn; [discriminate|].
  destruct (member v "text") as [| | | |t| |] eqn:Ht; try discriminate;
    intros H; injection H as <-; rewrite Ht; split; auto.
  right. now exists t.
Qed.


Lemma handleTranslation_string (data : JsValue) (t : jsstring) :
  nullish data = false ->
  js_or (js_or (member data "text") (member data "content")) (JString [])
  = JString t ->
  handleTranslation data
  = (if negb (is_empty t) && negb (is_empty (trim t)) then
       [SetFinalSubtitle t; SetPartialSubtitle []; SetSubtitle t]
     else [],
     Normal tt).
Proof.
  intros Hn Ht. unfold handleTranslation, get. rewrite Hn.
  cbn -[js_or trim]. rewrite Ht. cbn -[trim].
  now destruct (negb (is_empty t) && negb (is_empty (trim t))).
Qed.

Lemma handleTranscript_string (data : JsValue) (t : jsstring) :
  nullish data = false ->
  js_or (js_or (member data "text") (member data "content")) (JString [])
  = JString t ->
  handleTranscript data = ([], Normal tt).
Proof.
  intros Hn Ht. unfold handleTranscript, get. rewrite Hn.
  cbn -[js_or]. now rewrite Ht.
Qed.


Lemma caption_invariant_final (st : UI) (t : jsstring) :
  caption_invariant
    (fold_left reduce
       [SetFinalSubtitle t; SetPartialSubtitle []; SetSubtitle t] st).
Proof. unfold caption_invariant. cbn. now destruct t. Qed.

Lemma caption_invariant_partial (st : UI) (t : jsstring) :
  t <> [] ->
  caption_invariant
    (fold_left reduce
       [SetPartialSubtitle t; SetSubtitle (t ++ pending_indicator)] st).
Proof. unfold caption_invariant. cbn. now destruct t. Qed.

Lemma trim_nil : trim [] = [].
Proof. reflexivity. Qed.





(** ** Agent discovery *)

Lemma isAgent_includes (who : jsstring) :
  isAgent who
  <-> includes who (lit "translator") || includes who (lit "agent") = true.
Proof.
  unfold isAgent, contains. now rewrite orb_true_iff, !includes_spec.
Qed.

Lemma attachExisting_actions (publications : list TrackPublication) :
  attachExisting publications
  = (flat_map (fun publication =>
                 match track publication with
                 | Some t =>
                     match kind t with
                     | Audio => [AttachAudio (sid t)]
                     | Video => []
                     end
                 | None => []
                 end) publications,
     Normal tt).
Proof.
  induction publications as [|publication rest IH]; [reflexivity|].
  cbn [attachExisting flat_map]. rewrite IH.
  destruct (track publication) as [t|]; [|reflexivity].
  unfold handleTrackSubscribed. now destruct (kind t).
Qed.

Lemma attachExisting_keeps_state (publications : list TrackPublication)
    (st : UI) :
  fold_left reduce (actions (attachExisting publications)) st = st.
Proof.
  rewrite attachExisting_actions. cbn [actions fst].
  induction publications as [|publication rest IH]; [reflexivity|].
  cbn [flat_map]. rewrite fold_left_app.
  destruct (track publication) as [t|]; [|exact IH].
  destruct (kind t); exact IH.
Qed.

(** The web handler: a participant is taken for the translation agent
    exactly when its identity contains "translator" or "agent",
    case-sensitively: when it does, the participant becomes the current
    agent, and when it does not, the state, and so the current agent, is
    unchanged. *)
Lemma handleParticipantConnected_discovers_agent
    (participant : Participant) (st : UI) :
  (isAgent (identity participant) ->
   agentParticipant (run (handleParticipantConnected participant) st)
   = Some participant)
  /\ (~ isAgent (identity participant) ->
      run (handleParticipantConnected participant) st = st).
Proof.
  rewrite isAgent_includes. unfold handleParticipantConnected, run.
  destruct (includes (identity participant) (lit "translator")
            || includes (identity participant) (lit "agent")).
  - split; [intros _ | intros H; now elim H].
    destruct (attachExisting (tracks participant)) as [more r] eqn:Hat.
    pose proof (attachExisting_keeps_state (tracks participant)) as Hkeep.
    rewrite Hat in Hkeep. cbn [actions fst] in Hkeep.
    cbn [bind Monad_Js emit actions fst app fold_left].
    now rewrite Hkeep.
  - split; [discriminate | reflexivity].
Qed.

(** The Flutter handlers: a participant is taken for the agent exactly when
    its identity contains "translator". *)
Lemma flutter_handleParticipant_discovers_agent
    (participant : Participant) (_agent : option Participant)
    (page : FlutterPage.State) :
  (contains (identity participant) (lit "translator") ->
   Flutter._handleParticipant participant _agent = Some participant
   /\ FlutterPage._handleParticipant participant page
      = FlutterPage.mkState (Some participant) (FlutterPage._subtitle page)
                            FlutterPage.label_found
                            (FlutterPage._isConnected page))
  /\ (~ contains (identity participant) (lit "translator") ->
      Flutter._handleParticipant participant _agent = _agent
      /\ FlutterPage._handleParticipant participant page = page).
Proof.
  unfold contains. rewrite <- includes_spec.
  unfold Flutter._handleParticipant, FlutterPage._handleParticipant.
  destruct (includes (identity participant) (lit "translator")).
  - split; [now split | intros H; now elim H].
  - split; [discriminate | now split].
Qed.

(** C9 (as the code has it): the web client takes a participant for the
    translation agent exactly when its identity contains "translator" or
    "agent", case-sensitively, and the Flutter client exactly when it
    contains "translator": in each client, a participant that matches
    becomes the current agent, and one that does not leaves the state, and
    so the current agent, unchanged. *)
Theorem agent_discovery_in_both_clients
    (participant : Participant) (st : UI) (_agent : option Participant)
    (page : FlutterPage.State) :
  (isAgent (identity participant) ->
   agentParticipant (run (handleParticipantConnected participant) st)
   = Some participant)
  /\ (~ isAgent (identity participant) ->
      run (handleParticipantConnected participant) st = st)
  /\ (contains (identity participant) (lit "translator") ->
      Flutter._handleParticipant participant _agent = Some participant
      /\ FlutterPage._handleParticipant participant page
         = FlutterPage.mkState (Some participant)
                               (FlutterPage._subtitle page)
                               FlutterPage.label_found
                               (FlutterPage._isConnected page))
  /\ (~ contains (identity participant) (lit "translator") ->
      Flutter._handleParticipant participant _agent = _agent
      /\ FlutterPage._handleParticipant participant page = page).
Proof.
  destruct (handleParticipantConnected_discovers_agent participant st)
    as [Hweb Hweb'].
  destruct (flutter_handleParticipant_discovers_agent participant _agent page)
    as [Hflutter Hflutter'].
  repeat split; auto; try (now apply Hflutter); now apply Hflutter'.
Qed.

Lemma agent_discovery_in_both_clients_witness :
  (agentParticipant
     (run (handleParticipantConnected Sample.translator42) Sample.connectedUI)
   = Some Sample.translator42
   /\ run (handleParticipantConnected Sample.listener7) Sample.agentUI
      = Sample.agentUI)
  /\ (Flutter._handleParticipant Sample.translator42 None
      = Some Sample.translator42
      /\ FlutterPage._agent
           (FlutterPage._handleParticipant Sample.translator42
                                           FlutterPage.initialState)
         = Some Sample.translator42)
  /\ (Flutter._handleParticipant Sample.listener7 (Some Sample.translator42)
      = Some Sample.translator42
      /\ FlutterPage._handleParticipant Sample.listener7
                                        FlutterPage.initialState
         = FlutterPage.initialState).
Proof.
  destruct (agent_discovery_in_both_clients
              Sample.translator42 Sample.connectedUI None
              FlutterPage.initialState)
    as (Hweb & _ & Hflutter & _).
  destruct (agent_discovery_in_both_clients
              Sample.listener7 Sample.agentUI (Some Sample.translator42)
              FlutterPage.initialState)
    as (_ & Hweb' & _ & Hflutter').
  assert (Htranslator : contains (identity Sample.translator42)
                                 (lit "translator"))
    by (exists [], (lit "-42"); reflexivity).
  assert (Hlistener : ~ contains (identity Sample.listener7)
                                 (lit "translator")).
  { intros H. apply includes_spec in H. vm_compute in H. discriminate. }
  split; [split|split].
  - apply Hweb. left. exact Htranslator.
  - apply Hweb'. intros H. apply isAgent_includes in H. vm_compute in H.
    discriminate.
  - destruct (Hflutter Htranslator) as [H1 H2]. split; [exact H1|].
    now rewrite H2.
  - exact (Hflutter' Hlistener).
Defined.

(** C9, counterexample: the identity "agent-1" contains "agent", and the web
    client takes the participant for the agent, but the Flutter client does
    not: its agent and its page are as before. *)
Lemma flutter_ignores_agent_identity :
  isAgent (identity Sample.agent1)
  /\ agentParticipant
       (run (handleParticipantConnected Sample.agent1) initialUI)
     = Some Sample.agent1
  /\ Flutter._handleParticipant Sample.agent1 None = None
  /\ FlutterPage._handleParticipant Sample.agent1 FlutterPage.initialState
     = FlutterPage.initialState.
Proof.
  split; [|repeat split].
  right. exists [], (lit "-1"). reflexivity.
Qed.

(** The match is case-sensitive. *)
Example capitalised_identity_is_not_the_agent :
  ~ isAgent (lit "Translator-42") /\ ~ isAgent (lit "AGENT-1").
Proof.
  split; intros H; apply isAgent_includes in H; vm_compute in H;
    discriminate.
Qed.

(** ** Start / stop control *)

(** C1 (as the code has it): the broadcast variant sends nothing, changes
    no state and raises an alert when there is no connection, no room, or
    no usable microphone, and whenever it sends, the client is connected to
    a room with a usable microphone; an agent is no precondition of it.  The
    RPC variant does nothing but log an error when there is no connection,
    no room or no discovered agent, and whenever it sends, the client is
    connected to a room and an agent has been discovered. *)
Theorem toggleTranslation_preconditions :
  (forall (st : UI) (roomRef : option Room) (now : JsNumber)
          (outcome : option jsstring),
      isConnected st = false \/ roomRef = None
      \/ (exists room, roomRef = Some room
                       /\ microphone_unusable room = true) ->
      network (Broadcast.toggleTranslation st roomRef now outcome) = []
      /\ run (Broadcast.toggleTranslation st roomRef now outcome) st = st
      /\ exists text,
           In (Alert text)
              (actions (Broadcast.toggleTranslation st roomRef now outcome)))
  /\ (forall (st : UI) (roomRef : option Room) (now : JsNumber)
             (outcome : option jsstring),
         network (Broadcast.toggleTranslation st roomRef now outcome) <> [] ->
         isConnected st = true
         /\ exists room, roomRef = Some room
                         /\ microphone_unusable room = false)
  /\ (forall (st : UI) (roomRef : option Room) (outcome : option jsstring),
         isConnected st = false \/ roomRef = None
         \/ agentParticipant st = None ->
         actions (Rpc.toggleTranslation st roomRef outcome) = [ConsoleError])
  /\ (forall (st : UI) (roomRef : option Room) (outcome : option jsstring),
         network (Rpc.toggleTranslation st roomRef outcome) <> [] ->
         isConnected st = true /\ roomRef <> None
         /\ agentParticipant st <> None).
Proof.
  repeat split.
  - destruct H as [H | [H | (room & Hr & Hm)]];
      unfold Broadcast.toggleTranslation; subst; rewrite ?H;
      try (now destruct (isConnected st)).
    destruct (isConnected st); [|reflexivity]. now rewrite Hm.
  - destruct H as [H | [H | (room & Hr & Hm)]];
      unfold Broadcast.toggleTranslation; subst; rewrite ?H;
      try (now destruct (isConnected st)).
    destruct (isConnected st); [|reflexivity]. now rewrite Hm.
  - destruct H as [H | [H | (room & Hr & Hm)]];
      unfold Broadcast.toggleTranslation; subst; rewrite ?H.
    + exists msg_connect_first. cbn. tauto.
    + exists msg_connect_first. destruct (isConnected st); cbn; tauto.
    + destruct (isConnected st).
      * rewrite Hm. exists msg_microphone. cbn. tauto.
      * exists msg_connect_first. cbn. tauto.
  - unfold Broadcast.toggleTranslation in H.
    destruct (isConnected st); [reflexivity|]. now elim H.
  - unfold Broadcast.toggleTranslation in H.
    destruct (isConnected st); [|now elim H].
    destruct roomRef as [room|]; [|now elim H].
    exists room. split; [reflexivity|].
    destruct (microphone_unusable room); [now elim H | reflexivity].
  - intros st roomRef outcome H. unfold Rpc.toggleTranslation.
    destruct H as [H | [H | H]]; subst; rewrite ?H.
    + reflexivity.
    + now destruct (isConnected st).
    + now destruct (if isConnected st then roomRef else None).
  - unfold Rpc.toggleTranslation in H.
    destruct (isConnected st); [reflexivity|]. now elim H.
  - unfold Rpc.toggleTranslation in H. intros ->.
    destruct (isConnected st); now elim H.
  - unfold Rpc.toggleTranslation in H. intros Hnone. rewrite Hnone in H.
    destruct (if isConnected st then roomRef else None); now elim H.
Qed.

Lemma toggleTranslation_preconditions_witness :
  (network (Broadcast.toggleTranslation
              initialUI (Some Sample.room) Sample.clock None) = []
   /\ run (Broadcast.toggleTranslation
             initialUI (Some Sample.room) Sample.clock None) initialUI
      = initialUI)
  /\ (network (Broadcast.toggleTranslation
                 Sample.connectedUI (Some Sample.mutedRoom) Sample.clock None)
      = [])
  /\ (isConnected Sample.agentUI = true
      /\ exists room, Some Sample.room = Some room
                      /\ microphone_unusable room = false)
  /\ actions (Rpc.toggleTranslation Sample.connectedUI (Some Sample.room) None)
     = [ConsoleError]
  /\ (isConnected Sample.agentUI = true /\ Some Sample.room <> None
      /\ agentParticipant Sample.agentUI <> None).
Proof.
  destruct toggleTranslation_preconditions as (Hfail & Hsend & Hrpc & Hrpcsend).
  repeat apply conj.
  - apply (Hfail initialUI (Some Sample.room) Sample.clock None).
    left. reflexivity.
  - apply (Hfail initialUI (Some Sample.room) Sample.clock None).
    left. reflexivity.
  - apply (Hfail Sample.connectedUI (Some Sample.mutedRoom) Sample.clock None).
    right. right. exists Sample.mutedRoom. split; reflexivity.
  - apply (Hsend Sample.agentUI (Some Sample.room) Sample.clock None).
    vm_compute. discriminate.
  - apply (Hsend Sample.agentUI (Some Sample.room) Sample.clock None).
    vm_compute. discriminate.
  - apply (Hrpc Sample.connectedUI (Some Sample.room) None).
    right. right. reflexivity.
  - apply (Hrpcsend Sample.agentUI (Some Sample.room) None).
    vm_compute. discriminate.
  - apply (Hrpcsend Sample.agentUI (Some Sample.room) None).
    vm_compute. discriminate.
  - apply (Hrpcsend Sample.agentUI (Some Sample.room) None).
    vm_compute. discriminate.
Defined.

(** C1, counterexample: connected, with a usable microphone and no agent
    discovered, the broadcast variant publishes the start command, schedules
    its test message and switches to translating. *)
Lemma broadcast_start_without_agent :
  agentParticipant Sample.connectedUI = None
  /\ network (Broadcast.toggleTranslation
                Sample.connectedUI (Some Sample.room) Sample.clock None)
     = [ PublishData (controlMessage "start" Sample.clock Sample.room);
         ScheduleTestMessage 2000 ]
  /\ isTranslating
       (run (Broadcast.toggleTranslation
               Sample.connectedUI (Some Sample.room) Sample.clock None)
            Sample.connectedUI)
     = true.
Proof. repeat split. Qed.

(** ** The end-to-end scenario of the spec *)

Example partial_then_final :
  let partial := Sample.streamEvent [50504; 45397]%N false None in
  let final :=
    Sample.streamEvent [50504; 45397; 54616; 49464; 50836]%N true None in
  caption (receiveAll [ (lit "12:00", partial) ] initialUI)
  = ([50504; 45397; 32; 9203]%N, [50504; 45397]%N, [])
  /\ caption (receiveAll [ (lit "12:00", partial); (lit "12:01", final) ]
                         initialUI)
     = ([50504; 45397; 54616; 49464; 50836]%N, [],
        [50504; 45397; 54616; 49464; 50836]%N).
Proof. split; reflexivity. Qed.

(* ===================================================================== *)
(** * Further properties of the code *)
(* ===================================================================== *)

(** ** The event history under data events *)

(** Caption setters leave everything but the caption fields alone. *)
Lemma caption_actions_keep_rest (acts : list Action) (st : UI) :
  Forall (fun a => is_caption_action a = true) acts ->
  isConnected (fold_left reduce acts st) = isConnected st
  /\ isTranslating (fold_left reduce acts st) = isTranslating st
  /\ agentParticipant (fold_left reduce acts st) = agentParticipant st
  /\ debugEvents (fold_left reduce acts st) = debugEvents st.
Proof.
  intros Hacts. revert st.
  induction Hacts as [|a l Ha _ IH]; intros st; [now repeat split|].
  cbn [fold_left]. destruct (IH (reduce st a)) as (H1 & H2 & H3 & H4).
  rewrite H1, H2, H3, H4. destruct a; try discriminate Ha; now repeat split.
Qed.

Lemma traceInsert_keeps_rest (now : jsstring) (p : Payload) (st : UI) :
  isConnected (fold_left reduce (traceInsert now p) st) = isConnected st
  /\ isTranslating (fold_left reduce (traceInsert now p) st)
     = isTranslating st
  /\ agentParticipant (fold_left reduce (traceInsert now p) st)
     = agentParticipant st.
Proof. unfold traceInsert. now destruct (structured p). Qed.

Lemma debugEvents_handleDataReceived (now : jsstring) (e : DataEvent)
    (st : UI) :
  debugEvents (run (handleDataReceived now e) st)
  = match structured (payload e) with
    | Some jsonData => firstn 20 (eventInfoOf now jsonData :: debugEvents st)
    | None => debugEvents st
    end.
Proof.
  rewrite run_handleDataReceived.
  destruct (caption_actions_keep_rest
              (fold_left reduce (traceInsert now (payload e)) st)
              (apply_caption_only (decoded (payload e)) (decode (payload e))))
    as (_ & _ & _ & ->).
  unfold traceInsert. now destruct (structured (payload e)).
Qed.

(** X1: every entry that the data handler inserts into the event history
    carries the arrival time and a text of at most 103 code units: the text
    of the payload as it is when it has at most 100 code units, its first
    100 code units followed by three dots when it is longer, and the word
    "undefined" when the payload has no text. *)
Theorem history_entry_text_is_bounded
    (now : jsstring) (e : DataEvent) (info : EventInfo) :
  In (SetDebugEvents info) (actions (handleDataReceived now e)) ->
  List.length (info_text info) <= 103
  /\ info_received_at info = now
  /\ (forall t, (exists jsonData, parsed (payload e) = Some jsonData
                                  /\ member jsonData "text" = JString t) ->
                List.length t <= 100 -> info_text info = t)
  /\ (forall t, (exists jsonData, parsed (payload e) = Some jsonData
                                  /\ member jsonData "text" = JString t) ->
                100 < List.length t ->
                info_text info = firstn 100 t ++ lit "..."
                /\ List.length (info_text info) = 103)
  /\ ((exists jsonData, parsed (payload e) = Some jsonData
                        /\ nullish (member jsonData "text") = true) ->
      info_text info = lit "undefined").
Proof.
  intros Hin. rewrite handleDataReceived_shape in Hin. cbn [actions fst] in Hin.
  apply in_app_or in Hin as [Hin | Hin].
  { cbn in Hin. destruct Hin as [H | [H | []]]; discriminate. }
  apply in_app_or in Hin as [Hin | Hin].
  2:{ pose proof (apply_caption_only (decoded (payload e))
                                     (decode (payload e))) as Hcap.
      unfold caption_only in Hcap. rewrite Forall_forall in Hcap.
      apply Hcap in Hin. discriminate. }
  unfold traceInsert, structured in Hin.
  destruct (parsed (payload e)) as [jsonData|] eqn:Hp; [|contradiction].
  destruct (nullish jsonData); [contradiction|].
  assert (Hinfo : info = eventInfoOf now jsonData).
  { destruct (member jsonData "text"); try contradiction;
      destruct Hin as [H | []]; now injection H. }
  subst info. unfold eventInfoOf. cbn [info_text info_received_at].
  assert (H3 : List.length (lit "...") = 3) by reflexivity.
  split; [|split; [|split; [|split]]].
  - destruct (member jsonData "text") as [| | | |t| |];
      try (vm_compute; lia).
    unfold substring0. rewrite length_app.
    pose proof (firstn_le_length 100 t) as H1.
    assert (H2 : List.length (firstn 100 t) <= 100)
      by (rewrite length_firstn; lia).
    destruct (Nat.ltb 100 (List.length t)); [rewrite H3 | cbn [List.length]];
      lia.
  - reflexivity.
  - intros t (jsonData' & Hp' & Ht) Hlen.
    injection Hp' as <-. rewrite Ht. unfold substring0.
    rewrite firstn_all2 by exact Hlen.
    destruct (Nat.ltb_spec 100 (List.length t)); [lia|].
    apply app_nil_r.
  - intros t (jsonData' & Hp' & Ht) Hlen.
    injection Hp' as <-. rewrite Ht. unfold substring0.
    destruct (Nat.ltb_spec 100 (List.length t)); [|lia].
    split; [reflexivity|].
    rewrite length_app, length_firstn, H3. lia.
  - intros (jsonData' & Hp' & Ht). injection Hp' as <-.
    now destruct (member jsonData "text").
Qed.

Lemma history_entry_text_is_bounded_witness :
  info_text (eventInfoOf (lit "12:00") (Sample.stream Cases.longText false))
  = firstn 100 Cases.longText ++ lit "..."
  /\ List.length
       (info_text (eventInfoOf (lit "12:00")
                               (Sample.stream Cases.longText false)))
     = 103.
Proof.
  assert (Hin : In (SetDebugEvents
                      (eventInfoOf (lit "12:00")
                                   (Sample.stream Cases.longText false)))
                   (actions (handleDataReceived
                               (lit "12:00")
                               (Sample.streamEvent Cases.longText false None))))
    by (vm_compute; tauto).
  destruct (@history_entry_text_is_bounded
              (lit "12:00") (Sample.streamEvent Cases.longText false None)
              _ Hin)
    as (_ & _ & _ & Hlong & _).
  apply (Hlong Cases.longText).
  - exists (Sample.stream Cases.longText false). split; reflexivity.
  - vm_compute. lia.
Defined.

Lemma receiveAll_cons (now : jsstring) (e : DataEvent)
    (rest : list (jsstring * DataEvent)) (st : UI) :
  receiveAll ((now, e) :: rest) st
  = receiveAll rest (run (handleDataReceived now e) st).
Proof. reflexivity. Qed.

(** X2: after a sequence of data events the event history holds the twenty
    newest entries of the structured payloads of the sequence, newest first,
    followed by what was there before; payloads that are not structured
    leave no entry. *)
Theorem history_after_data_events
    (events : list (jsstring * DataEvent)) (st : UI) :
  List.length (debugEvents st) <= 20 ->
  debugEvents (receiveAll events st)
  = firstn 20 (rev (tracedEntries events) ++ debugEvents st).
Proof.
  revert st. induction events as [|[now e] rest IH]; intros st Hst.
  - unfold receiveAll, tracedEntries. cbn [fold_left flat_map rev app].
    symmetry. now apply firstn_all2.
  - rewrite receiveAll_cons, IH.
    + rewrite debugEvents_handleDataReceived.
      unfold tracedEntries. cbn [flat_map fst snd].
      fold (tracedEntries rest).
      destruct (structured (payload e)) as [jsonData|].
      * cbn [app rev]. rewrite <- app_assoc. cbn [app].
        apply (firstn_app_firstn 20 (rev (tracedEntries rest))
                                 (eventInfoOf now jsonData :: debugEvents st)).
      * reflexivity.
    + rewrite debugEvents_handleDataReceived.
      destruct (structured (payload e)); [apply firstn_le_length | exact Hst].
Qed.

Lemma history_after_data_events_witness :
  debugEvents
    (receiveAll [ (lit "12:00", Sample.hello);
                  (lit "12:01", Sample.comma None);
                  (lit "12:02", Sample.foo) ] initialUI)
  = firstn 20
      (rev (tracedEntries [ (lit "12:00", Sample.hello);
                            (lit "12:01", Sample.comma None);
                            (lit "12:02", Sample.foo) ])
       ++ debugEvents initialUI).
Proof.
  apply (@history_after_data_events
           [ (lit "12:00", Sample.hello);
             (lit "12:01", Sample.comma None);
             (lit "12:02", Sample.foo) ] initialUI).
  cbn. lia.
Defined.

(** ** The arms of the data handler *)

Lemma blank_message (message : jsstring) :
  negb (is_empty message) && negb (is_empty (trim message))
  = negb (forallb is_whitespace message).
Proof.
  destruct (forallb is_whitespace message) eqn:Hb.
  - apply trim_blank in Hb. rewrite Hb. cbn. apply andb_false_r.
  - assert (Ht : trim message <> []) by (rewrite trim_blank; congruence).
    destruct message as [|c m]; [now elim Ht|].
    destruct (trim (c :: m)); [now elim Ht | reflexivity].
Qed.

Lemma run_plainText (message : jsstring) (st : UI) :
  fold_left reduce (actions (plainText message)) st
  = if forallb is_whitespace message then st
    else setCaption st message (partialSubtitle st) (finalSubtitle st).
Proof.
  unfold plainText. rewrite blank_message.
  now destruct (forallb is_whitespace message).
Qed.

(** X3: a payload that is not structured (not JSON, JSON null, or with a
    text that is not a string) is handled as plain text: when the message is
    blank nothing changes, and otherwise the message is displayed and
    nothing else changes. *)
Theorem unstructured_payload_is_plain_text
    (now : jsstring) (e : DataEvent) (st : UI) :
  structured (payload e) = None ->
  run (handleDataReceived now e) st
  = if forallb is_whitespace (decoded (payload e)) then st
    else setCaption st (decoded (payload e))
                    (partialSubtitle st) (finalSubtitle st).
Proof.
  intros Hs. rewrite run_handleDataReceived. unfold traceInsert, decode.
  rewrite Hs. cbn [fold_left apply]. apply run_plainText.
Qed.

Lemma unstructured_payload_is_plain_text_witness :
  run (handleDataReceived (lit "12:00") Sample.hello) Sample.busyUI
  = setCaption Sample.busyUI (lit "hello") (lit "par") (lit "fin").
Proof.
  apply (@unstructured_payload_is_plain_text
           (lit "12:00") Sample.hello Sample.busyUI).
  reflexivity.
Defined.





Lemma textOrContent_optional (data : JsValue)
    (text content : option jsstring) :
  member data "text" = optionalString text ->
  member data "content" = optionalString content ->
  textOrContent data = JString (chosenText text content).
Proof.
  intros Ht Hc. unfold textOrContent. rewrite Ht, Hc.
  now destruct text as [[|c t]|], content as [[|d s]|].
Qed.

(** X5: a translation event is always final: its text, or its content when
    the text is missing or empty, replaces the final text and the display
    and empties the partial text, unless what was chosen is blank, in which
    case nothing changes. *)
Theorem handleTranslation_prefers_text
    (data : JsValue) (text content : option jsstring) (st : UI) :
  nullish data = false ->
  member data "text" = optionalString text ->
  member data "content" = optionalString content ->
  run (handleTranslation data) st
  = if forallb is_whitespace (chosenText text content) then st
    else setCaption st (chosenText text content) []
                    (chosenText text content).
Proof.
  intros Hn Ht Hc. unfold run.
  rewrite (handleTranslation_string data Hn
             (textOrContent_optional data text content Ht Hc)).
  rewrite blank_message.
  now destruct (forallb is_whitespace (chosenText text content)).
Qed.

Lemma handleTranslation_prefers_text_witness :
  run (handleTranslation Cases.translationByContent) Sample.busyUI
  = setCaption Sample.busyUI (lit "hi") [] (lit "hi").
Proof.
  apply (@handleTranslation_prefers_text
           Cases.translationByContent (Some []) (Some (lit "hi"))
           Sample.busyUI);
    reflexivity.
Defined.

Lemma handleTranscript_silent (data : JsValue) :
  actions (handleTranscript data) = [].
Proof.
  unfold handleTranscript, get. destruct (nullish data); [reflexivity|].
  cbn -[js_or].
  now destruct (js_or (js_or (member data "text") (member data "content"))
                      (JString [])).
Qed.

Lemma run_transcript (now : jsstring) (e : DataEvent) (jsonData : JsValue)
    (st : UI) :
  structured (payload e) = Some jsonData ->
  member jsonData "type" = JString (lit "transcript") ->
  is_string (textOrContent jsonData) = true ->
  run (handleDataReceived now e) st
  = reduce st (SetDebugEvents (eventInfoOf now jsonData)).
Proof.
  intros Hs Htype Hstr.
  rewrite run_handleDataReceived. unfold traceInsert, decode.
  rewrite Hs, Htype.
  replace (strict_eq_string (JString (lit "transcript"))
                            (lit "translation_stream"))
    with false by reflexivity.
  replace (strict_eq_string (JString (lit "transcript")) (lit "translation"))
    with false by reflexivity.
  replace (strict_eq_string (JString (lit "transcript")) (lit "transcript"))
    with true by reflexivity.
  cbn [apply fold_left].
  destruct (structured_some _ Hs) as [Hn _].
  unfold textOrContent in Hstr.
  destruct (js_or (js_or (member jsonData "text") (member jsonData "content"))
                  (JString [])) as [| | | |t| |] eqn:Ht; try discriminate.
  now rewrite (handleTranscript_string jsonData Hn Ht).
Qed.

(** X6: a transcript is never displayed: the transcript handler calls no
    setter whatever it is given, and a transcript event with a string text
    only adds its entry to the event history. *)
Theorem transcript_is_never_displayed
    (now : jsstring) (e : DataEvent) (jsonData : JsValue) (st : UI) :
  structured (payload e) = Some jsonData ->
  member jsonData "type" = JString (lit "transcript") ->
  is_string (textOrContent jsonData) = true ->
  (forall data, actions (handleTranscript data) = [])
  /\ run (handleDataReceived now e) st
     = reduce st (SetDebugEvents (eventInfoOf now jsonData)).
Proof.
  intros Hs Htype Hstr. split; [exact handleTranscript_silent|].
  now apply run_transcript.
Qed.

Lemma transcript_is_never_displayed_witness :
  run (handleDataReceived (lit "12:00") Cases.transcript) Sample.busyUI
  = reduce Sample.busyUI
      (SetDebugEvents
         (eventInfoOf (lit "12:00")
            (Sample.object [ ("type"%string, JString (lit "transcript"));
                             ("text"%string, JString (lit "hello")) ]))).
Proof.
  apply (@transcript_is_never_displayed
           (lit "12:00") Cases.transcript
           (Sample.object [ ("type"%string, JString (lit "transcript"));
                            ("text"%string, JString (lit "hello")) ])
           Sample.busyUI);
    reflexivity.
Defined.

(** ** Captions under repeated and later events *)

(** X7: a stream event that passes the filters, or a translation event with
    a string text that is not blank, puts the caption fields back into the
    relation of the caption invariant whatever the state before it was (for
    instance after a status line was displayed). *)
Theorem accepted_event_restores_caption_invariant
    (now : jsstring) (e : DataEvent) (st : UI) :
  acceptedEvent (payload e) = true ->
  caption_invariant (run (handleDataReceived now e) st).
Proof.
  intros Hacc. rewrite run_handleDataReceived.
  generalize (fold_left reduce (traceInsert now (payload e)) st). intros s.
  unfold acceptedEvent, decode in *.
  destruct (structured (payload e)) as [jsonData|] eqn:Hst; [|discriminate].
  destruct (structured_some _ Hst) as [Hn _].
  destruct (strict_eq_string (member jsonData "type")
                             (lit "translation_stream")).
  - destruct (member jsonData "text") as [| | | |t| |] eqn:Ht;
      try discriminate.
    cbn [apply]. rewrite (handleTranslationStream_string jsonData Hn Ht).
    unfold filteredOut in Hacc. apply negb_true_iff in Hacc.
    apply orb_false_iff in Hacc as [H0 H1]. rewrite H0, H1.
    destruct (truthy (member jsonData "is_final"));
      cbn [catch Exc_Js actions fst].
    + apply caption_invariant_final.
    + apply caption_invariant_partial. intros ->.
      rewrite trim_nil in H0. discriminate.
  - destruct (strict_eq_string (member jsonData "type") (lit "translation"));
      [|discriminate].
    unfold textOrContent in Hacc.
    destruct (js_or (js_or (member jsonData "text")
                           (member jsonData "content")) (JString []))
      as [| | | |t| |] eqn:Ht; try discriminate.
    cbn [apply]. rewrite (handleTranslation_string jsonData Hn Ht).
    apply negb_true_iff in Hacc. rewrite Hacc.
    destruct t as [|c t]; [discriminate|].
    apply caption_invariant_final.
Qed.

Lemma accepted_event_restores_caption_invariant_witness :
  caption_invariant
    (run (handleDataReceived (lit "12:00") (Sample.comma None))
         Cases.statusUI).
Proof.
  apply (@accepted_event_restores_caption_invariant
           (lit "12:00") (Sample.comma None) Cases.statusUI).
  reflexivity.
Defined.

(** What a list of actions does to the caption fields: each is overwritten
    by a value that does not depend on the state, or kept. *)
Lemma caption_after_actions (acts : list Action) :
  exists display partial final : option jsstring,
    forall st,
      caption (fold_left reduce acts st)
      = (overwrite display (subtitle st),
         overwrite partial (partialSubtitle st),
         overwrite final (finalSubtitle st)).
Proof.
  induction acts as [|a acts (d & p & f & IH)].
  - now exists None, None, None.
  - destruct a;
      try (exists d, p, f; intros st; cbn [fold_left]; rewrite IH;
           reflexivity).
    + exists (match d with Some v => Some v | None => Some s end), p, f.
      intros st. cbn [fold_left]. rewrite IH. now destruct d.
    + exists d, (match p with Some v => Some v | None => Some s end), f.
      intros st. cbn [fold_left]. rewrite IH. now destruct p.
    + exists d, p, (match f with Some v => Some v | None => Some s end).
      intros st. cbn [fold_left]. rewrite IH. now destruct f.
Qed.

(** X8: handling the same payload a second time (a duplicate delivery, or a
    second listener for the same message) leaves the caption fields as the
    first handling left them. *)
Theorem duplicate_delivery_keeps_caption
    (now1 now2 : jsstring) (e1 e2 : DataEvent) (st : UI) :
  payload e1 = payload e2 ->
  caption (run (handleDataReceived now2 e2)
               (run (handleDataReceived now1 e1) st))
  = caption (run (handleDataReceived now1 e1) st).
Proof.
  intros Hp. rewrite !run_handleDataReceived, <- Hp.
  set (A := actions (apply (decoded (payload e1)) (decode (payload e1)))).
  set (S0 := fold_left reduce (traceInsert now1 (payload e1)) st).
  rewrite (@caption_fold A
             (fold_left reduce (traceInsert now2 (payload e1))
                        (fold_left reduce A S0))
             (fold_left reduce A S0)
             (apply_caption_only _ _)
             (caption_traceInsert now2 (payload e1) _)).
  destruct (caption_after_actions A) as (d & p & f & H).
  rewrite (H (fold_left reduce A S0)).
  pose proof (H S0) as H0. unfold caption in H0. injection H0 as -> -> ->.
  rewrite H. now destruct d, p, f.
Qed.

Lemma duplicate_delivery_keeps_caption_witness :
  caption (run (handleDataReceived (lit "12:01")
                  (Sample.comma (Some "translator-42"%string)))
               (run (handleDataReceived (lit "12:00") (Sample.comma None))
                    Sample.busyUI))
  = caption (run (handleDataReceived (lit "12:00") (Sample.comma None))
                 Sample.busyUI).
Proof.
  apply (@duplicate_delivery_keeps_caption
           (lit "12:00") (lit "12:01") (Sample.comma None)
           (Sample.comma (Some "translator-42"%string)) Sample.busyUI).
  reflexivity.
Defined.

(** X9: data events never touch the connection flag, the translating flag
    or the current agent, whatever the payloads are. *)
Theorem data_events_keep_session_fields
    (events : list (jsstring * DataEvent)) (st : UI) :
  isConnected (receiveAll events st) = isConnected st
  /\ isTranslating (receiveAll events st) = isTranslating st
  /\ agentParticipant (receiveAll events st) = agentParticipant st.
Proof.
  revert st. induction events as [|[now e] rest IH]; intros st;
    [now repeat split|].
  rewrite receiveAll_cons.
  destruct (IH (run (handleDataReceived now e) st)) as (-> & -> & ->).
  rewrite run_handleDataReceived.
  destruct (caption_actions_keep_rest
              (fold_left reduce (traceInsert now (payload e)) st)
              (apply_caption_only (decoded (payload e)) (decode (payload e))))
    as (-> & -> & -> & _).
  apply traceInsert_keeps_rest.
Qed.

(** ** Agent discovery over several participants *)

Lemma matchesAgent_isAgent (who : jsstring) :
  matchesAgent who = true <-> isAgent who.
Proof. symmetry. apply isAgent_includes. Qed.

Lemma run_handleParticipantConnected (participant : Participant) (st : UI) :
  run (handleParticipantConnected participant) st
  = if matchesAgent (identity participant)
    then reduce st (SetAgentParticipant (Some participant))
    else st.
Proof.
  unfold run, handleParticipantConnected, matchesAgent.
  destruct (includes (identity participant) (lit "translator")
            || includes (identity participant) (lit "agent"));
    [|reflexivity].
  destruct (attachExisting (tracks participant)) as [more r] eqn:Hat.
  pose proof (attachExisting_keeps_state (tracks participant)) as Hkeep.
  rewrite Hat in Hkeep. cbn [actions fst] in Hkeep.
  cbn [bind Monad_Js emit actions fst app fold_left reduce].
  apply Hkeep.
Qed.

Lemma findLast_cons {A : Type} (test : A -> bool) (x : A) (l : list A) :
  findLast test (x :: l)
  = match findLast test l with
    | Some y => Some y
    | None => if test x then Some x else None
    end.
Proof.
  unfold findLast. cbn [rev].
  induction (rev l) as [|y r IH]; cbn; [reflexivity|].
  now destruct (test y).
Qed.

Lemma joinAll_last_match (participants : list Participant) (st : UI) :
  joinAll participants st
  = match findLast (fun p => matchesAgent (identity p)) participants with
    | Some p => reduce st (SetAgentParticipant (Some p))
    | None => st
    end.
Proof.
  revert st. induction participants as [|p rest IH]; intros st;
    [reflexivity|].
  unfold joinAll. cbn [fold_left]. fold (joinAll rest).
  rewrite IH, findLast_cons, run_handleParticipantConnected.
  destruct (findLast (fun p => matchesAgent (identity p)) rest);
    now destruct (matchesAgent (identity p)).
Qed.

(** X10: when participants join one after the other (or are replayed on
    connection), the current agent is the last of them whose identity
    matches, or the agent there was when none matches; the caption fields,
    the connection flag, the translating flag and the event history are
    as before. *)
Theorem last_matching_participant_is_the_agent
    (participants : list Participant) (st : UI) :
  agentParticipant (joinAll participants st)
  = match findLast (fun p => matchesAgent (identity p)) participants with
    | Some p => Some p
    | None => agentParticipant st
    end
  /\ caption (joinAll participants st) = caption st
  /\ isConnected (joinAll participants st) = isConnected st
  /\ isTranslating (joinAll participants st) = isTranslating st
  /\ debugEvents (joinAll participants st) = debugEvents st.
Proof.
  rewrite joinAll_last_match.
  destruct (findLast (fun p => matchesAgent (identity p)) participants);
    now repeat split.
Qed.

(** X11: joining attaches for playback exactly the audio tracks that an
    agent has already published with a track object: nothing is attached
    for a participant that is not the agent, nor for a video track. *)
Theorem only_agent_audio_is_attached
    (participant : Participant) (trackId : jsstring) :
  In (AttachAudio trackId) (actions (handleParticipantConnected participant))
  <-> matchesAgent (identity participant) = true
      /\ exists publication t,
           In publication (tracks participant)
           /\ track publication = Some t
           /\ kind t = Audio /\ sid t = trackId.
Proof.
  unfold handleParticipantConnected, matchesAgent.
  destruct (includes (identity participant) (lit "translator")
            || includes (identity participant) (lit "agent")).
  - rewrite attachExisting_actions.
    cbn [bind Monad_Js emit actions fst app]. split.
    + intros [H | [H | H]]; try discriminate.
      apply in_flat_map in H as (publication & Hin & Hat).
      split; [reflexivity|].
      destruct (track publication) as [t|] eqn:Ht; [|contradiction].
      destruct (kind t) eqn:Hk; [|contradiction].
      destruct Hat as [Heq | []]. injection Heq as Heq.
      now exists publication, t.
    + intros (_ & publication & t & Hin & Ht & Hk & Hs).
      right. right. apply in_flat_map. exists publication.
      split; [exact Hin|]. rewrite Ht, Hk, Hs. now left.
  - cbn. split; [contradiction | intros [H _]; discriminate].
Qed.

Lemma digits_do_not_start (digits : jsstring) (c : N) (sub : jsstring) :
  forallb is_digit digits = true ->
  is_digit c = false ->
  includes digits (c :: sub) = false.
Proof.
  intros Hd Hc. induction digits as [|d digits IH]; [reflexivity|].
  cbn [forallb] in Hd. apply andb_true_iff in Hd as [Hd Hrest].
  cbn [includes startsWith]. rewrite (IH Hrest), orb_false_r.
  destruct (N.eqb_spec c d) as [-> | _]; [congruence | reflexivity].
Qed.

(** An identity made of "listener-" or
    "flutter-listener-" and decimal digits contains neither "translator"
    nor "agent". *)
Lemma listener_identity_does_not_match (digits : jsstring) :
  forallb is_digit digits = true ->
  matchesAgent (lit "listener-" ++ digits) = false
  /\ matchesAgent (lit "flutter-listener-" ++ digits) = false.
Proof.
  intros Hd. unfold matchesAgent.
  assert (Ht : includes digits (lit "translator") = false)
    by (apply digits_do_not_start; [exact Hd | reflexivity]).
  assert (Ha : includes digits (lit "agent") = false)
    by (apply digits_do_not_start; [exact Hd | reflexivity]).
  revert Ht Ha.
  let l := eval vm_compute in (lit "listener-") in
    change (lit "listener-") with l.
  let l := eval vm_compute in (lit "flutter-listener-") in
    change (lit "flutter-listener-") with l.
  let l := eval vm_compute in (lit "translator") in
    change (lit "translator") with l.
  let l := eval vm_compute in (lit "agent") in
    change (lit "agent") with l.
  intros Ht Ha. cbn [app includes startsWith N.eqb Pos.eqb andb orb].
  rewrite Ht, Ha. now split.
Qed.

Lemma only_agent_audio_is_attached_witness :
  In (AttachAudio (lit "TR_a"))
     (actions (handleParticipantConnected Sample.translator42)).
Proof.
  apply (only_agent_audio_is_attached Sample.translator42 (lit "TR_a")).
  split; [reflexivity|].
  exists (mkPublication (lit "TR_a") (Some (mkTrack Audio (lit "TR_a")))),
         (mkTrack Audio (lit "TR_a")).
  repeat split. left. reflexivity.
Defined.

(** ** Start / stop control: what is sent and what is left behind *)

(** X13: connected, with a usable microphone and a send that succeeds, the
    broadcast variant publishes one control message whose action is "start"
    when it was not translating and "stop" when it was, flips the
    translating flag, displays the matching notice, schedules its test
    message after a start only, and keeps the partial text, the final text,
    the agent and the event history; a second such call brings the
    translating flag back. *)
Theorem broadcast_toggle_alternates
    (st : UI) (room : Room) (now now' : JsNumber) :
  isConnected st = true ->
  microphone_unusable room = false ->
  network (Broadcast.toggleTranslation st (Some room) now None)
  = PublishData (controlMessage (if isTranslating st then "stop" else "start")
                                now room)
    :: (if isTranslating st then [] else [ScheduleTestMessage 2000])
  /\ run (Broadcast.toggleTranslation st (Some room) now None) st
     = mkUI true (negb (isTranslating st))
            (if isTranslating st then msg_stopped else msg_started)
            (partialSubtitle st) (finalSubtitle st) (agentParticipant st)
            (debugEvents st)
  /\ isTranslating
       (run (Broadcast.toggleTranslation
               (run (Broadcast.toggleTranslation st (Some room) now None) st)
               (Some room) now' None)
            (run (Broadcast.toggleTranslation st (Some room) now None) st))
     = isTranslating st.
Proof.
  intros Hc Hm. unfold Broadcast.toggleTranslation, network, run.
  destruct st as [conn tr sub par fin ag dbg]. cbn in Hc. subst conn.
  cbn [isConnected isTranslating]. rewrite Hm.
  destruct tr; cbn; rewrite ?Hm; cbn; repeat split.
Qed.

Lemma broadcast_toggle_alternates_witness :
  isTranslating
    (run (Broadcast.toggleTranslation
            (run (Broadcast.toggleTranslation
                    Sample.connectedUI (Some Sample.room) Sample.clock None)
                 Sample.connectedUI)
            (Some Sample.room) Sample.clock None)
         (run (Broadcast.toggleTranslation
                 Sample.connectedUI (Some Sample.room) Sample.clock None)
              Sample.connectedUI))
  = isTranslating Sample.connectedUI.
Proof.
  apply (@broadcast_toggle_alternates
           Sample.connectedUI Sample.room Sample.clock Sample.clock);
    reflexivity.
Defined.

(** X14: when the send is rejected, the broadcast variant has made exactly
    one publish call and scheduled no test message; it ends not translating
    whatever it was before (also when it was the stop that failed), displays
    the failure notice, and raises an alert that carries the error message
    when there is one; partial text, final text, agent and event history
    are kept. *)
Theorem broadcast_toggle_failure
    (st : UI) (room : Room) (now : JsNumber) (message : jsstring) :
  isConnected st = true ->
  microphone_unusable room = false ->
  network (Broadcast.toggleTranslation st (Some room) now (Some message))
  = [ PublishData (controlMessage (if isTranslating st then "stop"
                                   else "start") now room) ]
  /\ run (Broadcast.toggleTranslation st (Some room) now (Some message)) st
     = mkUI true false msg_control_failed
            (partialSubtitle st) (finalSubtitle st) (agentParticipant st)
            (debugEvents st)
  /\ In (Alert (msg_toggle_failed
                ++ (if is_empty message then [] else lit ": " ++ message)
                ++ msg_check_network))
        (actions (Broadcast.toggleTranslation st (Some room) now
                                              (Some message))).
Proof.
  intros Hc Hm. unfold Broadcast.toggleTranslation, network, run.
  destruct st as [conn tr sub par fin ag dbg]. cbn in Hc. subst conn.
  cbn [isConnected isTranslating]. rewrite Hm.
  destruct tr; cbn -[lit msg_toggle_failed msg_check_network app];
    repeat split; cbn; tauto.
Qed.

Lemma broadcast_toggle_failure_witness :
  isTranslating
    (run (Broadcast.toggleTranslation
            Sample.agentUI (Some Sample.room) Sample.clock
            (Some (lit "timeout")))
         Sample.agentUI)
  = false.
Proof.
  destruct (@broadcast_toggle_failure
              Sample.agentUI Sample.room Sample.clock (lit "timeout"))
    as (_ & Hrun & _); [reflexivity | reflexivity |].
  now rewrite Hrun.
Defined.

(** X15: the RPC variant, connected with a room and an agent, calls the
    agent by its identity with "start_translation" when it was not
    translating and "stop_translation" when it was; the translating flag
    flips only when the call succeeds, and a rejected call leaves the whole
    state as it was and raises an alert. *)
Theorem rpc_toggle_flips_after_success
    (st : UI) (room : Room) (agent : Participant)
    (outcome : option jsstring) :
  isConnected st = true ->
  agentParticipant st = Some agent ->
  network (Rpc.toggleTranslation st (Some room) outcome)
  = [ PerformRpc (identity agent)
                 (lit (if isTranslating st then "stop_translation"
                       else "start_translation")) ]
  /\ run (Rpc.toggleTranslation st (Some room) outcome) st
     = match outcome with
       | None => reduce st (SetIsTranslating (negb (isTranslating st)))
       | Some _ => st
       end
  /\ (outcome <> None ->
      In (Alert msg_rpc_failed)
         (actions (Rpc.toggleTranslation st (Some room) outcome))).
Proof.
  intros Hc Ha. unfold Rpc.toggleTranslation, network, run.
  rewrite Hc, Ha.
  destruct (isTranslating st) eqn:Htr, outcome as [message|];
    cbn -[lit]; rewrite ?Htr; repeat split; try tauto;
    intros H; now elim H.
Qed.

Lemma rpc_toggle_flips_after_success_witness :
  run (Rpc.toggleTranslation Sample.agentUI (Some Sample.room)
                             (Some (lit "timeout")))
      Sample.agentUI
  = Sample.agentUI
  /\ In (Alert msg_rpc_failed)
        (actions (Rpc.toggleTranslation Sample.agentUI (Some Sample.room)
                                        (Some (lit "timeout")))).
Proof.
  destruct (@rpc_toggle_flips_after_success
              Sample.agentUI Sample.room Sample.translator42
              (Some (lit "timeout")))
    as (_ & Hrun & Halert); [reflexivity | reflexivity |].
  split; [exact Hrun | apply Halert; discriminate].
Defined.

(** ** Joining, connecting and leaving *)

(** X12: the identities that the clients ask tokens for ("listener-" or
    "flutter-listener-" followed by the time in milliseconds) are never
    taken for the translation agent, by the web heuristic or by the Flutter
    one: such a participant joining changes nothing. *)
Theorem listeners_are_never_taken_for_the_agent
    (now : JsNumber) (published : list TrackPublication) (st : UI)
    (_agent : option Participant) :
  forallb is_digit (number_text now) = true ->
  run (handleParticipantConnected (mkParticipant (joinIdentity now) published))
      st = st
  /\ run (handleParticipantConnected
            (mkParticipant (flutterIdentity now) published)) st = st
  /\ Flutter._handleParticipant
       (mkParticipant (joinIdentity now) published) _agent = _agent
  /\ Flutter._handleParticipant
       (mkParticipant (flutterIdentity now) published) _agent = _agent.
Proof.
  intros Hd.
  destruct (listener_identity_does_not_match (number_text now) Hd)
    as [Hweb Hflutter].
  fold (joinIdentity now) in Hweb. fold (flutterIdentity now) in Hflutter.
  rewrite !run_handleParticipantConnected. cbn [identity].
  rewrite Hweb, Hflutter. unfold Flutter._handleParticipant. cbn [identity].
  unfold matchesAgent in Hweb, Hflutter.
  apply orb_false_iff in Hweb as [-> _].
  apply orb_false_iff in Hflutter as [-> _].
  now repeat split.
Qed.

Lemma listeners_are_never_taken_for_the_agent_witness :
  run (handleParticipantConnected
         (mkParticipant (joinIdentity Sample.clock) [])) Sample.agentUI
  = Sample.agentUI.
Proof.
  apply (@listeners_are_never_taken_for_the_agent
           Sample.clock [] Sample.agentUI None).
  reflexivity.
Defined.

(** X16: what a join does is settled by how the token request settles.
    One token request is made, for the room of the language.  A response
    that is ok, with a body that is not null and has no truthy error member,
    stores the token and the server address of the body and selects the
    room, and nothing else.  Every other outcome raises one alert, with the
    cause of the failure (the error of a rejected request or of an
    unreadable body, the status of a response that is not ok, a null body,
    the error member of the body), and leaves the page as it was. *)
Theorem joinRoom_sets_all_or_nothing
    (language : Language) (now : JsNumber) (outcome : FetchOutcome)
    (p : Page) :
  (forall status data,
      outcome = FetchResponse true status (inl data) ->
      nullish data = false ->
      truthy (member data "error") = false ->
      joinRoom language now outcome
      = [ FetchToken (roomName language) (joinIdentity now);
          SetToken (member data "token");
          SetLiveKitUrl (member data "livekit_url");
          SetSelectedRoom (Some language) ]
      /\ runPage (joinRoom language now outcome) p
         = mkPage (ui p) (roomRefCurrent p) (Some language)
                  (member data "token") (member data "livekit_url")
                  (showDebugPanel p))
  /\ (forall message,
         outcome = FetchRejected message ->
         joinRoom language now outcome
         = [ FetchToken (roomName language) (joinIdentity now);
             AlertJoinFailed (Thrown message) ]
         /\ runPage (joinRoom language now outcome) p = p)
  /\ (forall status body,
         outcome = FetchResponse false status body ->
         joinRoom language now outcome
         = [ FetchToken (roomName language) (joinIdentity now);
             AlertJoinFailed (HttpError status) ]
         /\ runPage (joinRoom language now outcome) p = p)
  /\ (forall status message,
         outcome = FetchResponse true status (inr message) ->
         joinRoom language now outcome
         = [ FetchToken (roomName language) (joinIdentity now);
             AlertJoinFailed (Thrown message) ]
         /\ runPage (joinRoom language now outcome) p = p)
  /\ (forall status data,
         outcome = FetchResponse true status (inl data) ->
         nullish data = true ->
         joinRoom language now outcome
         = [ FetchToken (roomName language) (joinIdentity now);
             AlertJoinFailed NoBody ]
         /\ runPage (joinRoom language now outcome) p = p)
  /\ (forall status data,
         outcome = FetchResponse true status (inl data) ->
         nullish data = false ->
         truthy (member data "error") = true ->
         joinRoom language now outcome
         = [ FetchToken (roomName language) (joinIdentity now);
             AlertJoinFailed (ServerError (member data "error")) ]
         /\ runPage (joinRoom language now outcome) p = p).
Proof.
  split; [|split; [|split; [|split; [|split]]]].
  - intros status data -> Hn He. unfold joinRoom. rewrite Hn, He.
    split; reflexivity.
  - intros message ->. split; reflexivity.
  - intros status body ->. split; reflexivity.
  - intros status message ->. split; reflexivity.
  - intros status data -> Hn. unfold joinRoom. rewrite Hn.
    split; reflexivity.
  - intros status data -> Hn He. unfold joinRoom. rewrite Hn, He.
    split; reflexivity.
Qed.

Lemma joinRoom_sets_all_or_nothing_witness :
  (joinRoom Cases.malay Sample.clock
            (FetchResponse true (lit "200") (inl Cases.tokenBody))
   = [ FetchToken (lit "Pryme-Malay") (lit "listener-1700000000000");
       SetToken (JString (lit "abc"));
       SetLiveKitUrl (JString (lit "wss://example.test"));
       SetSelectedRoom (Some Cases.malay) ]
   /\ runPage (joinRoom Cases.malay Sample.clock
                        (FetchResponse true (lit "200")
                                       (inl Cases.tokenBody)))
              initialPage
      = mkPage initialUI None (Some Cases.malay) (JString (lit "abc"))
               (JString (lit "wss://example.test")) false)
  /\ (joinRoom Cases.malay Sample.clock
               (FetchResponse true (lit "200") (inl Cases.errorBody))
      = [ FetchToken (lit "Pryme-Malay") (lit "listener-1700000000000");
          AlertJoinFailed (ServerError (JString (lit "room not found"))) ]
      /\ runPage (joinRoom Cases.malay Sample.clock
                           (FetchResponse true (lit "200")
                                          (inl Cases.errorBody)))
                 initialPage
         = initialPage).
Proof.
  split.
  - destruct (joinRoom_sets_all_or_nothing
                Cases.malay Sample.clock
                (FetchResponse true (lit "200") (inl Cases.tokenBody))
                initialPage) as (Hok & _).
    exact (Hok (lit "200") Cases.tokenBody eq_refl eq_refl eq_refl).
  - destruct (joinRoom_sets_all_or_nothing
                Cases.malay Sample.clock
                (FetchResponse true (lit "200") (inl Cases.errorBody))
                initialPage) as (_ & _ & _ & _ & _ & Herr).
    exact (Herr (lit "200") Cases.errorBody eq_refl eq_refl eq_refl).
Defined.

Lemma runPage_OnUI (acts : list Action) (p : Page) :
  runPage (List.map OnUI acts) p = withUI p (fold_left reduce acts (ui p)).
Proof.
  revert p. induction acts as [|a acts IH]; intros p.
  - now destruct p.
  - unfold runPage in *. cbn [List.map fold_left]. rewrite IH.
    now destruct p.
Qed.

Lemma runPage_replay (participants : list Participant) (p : Page) :
  runPage (flat_map (fun participant =>
                       List.map OnUI
                         (actions (handleParticipantConnected participant)))
                    participants) p
  = withUI p (joinAll participants (ui p)).
Proof.
  revert p. induction participants as [|x rest IH]; intros p.
  - now destruct p.
  - cbn [flat_map]. unfold runPage in *. rewrite fold_left_app.
    fold (runPage (List.map OnUI (actions (handleParticipantConnected x))) p).
    rewrite runPage_OnUI, IH. now destruct p.
Qed.

(** X17: once the room is connected and the participants already there are
    replayed, the room is kept, the connection flag is set, and the agent is
    the last replayed participant that matches, or the one there was; the
    captions, the translating flag and the event history are as before. *)
Theorem roomConnected_replays_participants
    (room : Room) (participants : list Participant) (p : Page) :
  runPage (roomConnected room participants) p
  = mkPage (mkUI true (isTranslating (ui p)) (subtitle (ui p))
                 (partialSubtitle (ui p)) (finalSubtitle (ui p))
                 (match findLast (fun x => matchesAgent (identity x))
                                 participants with
                  | Some agent => Some agent
                  | None => agentParticipant (ui p)
                  end)
                 (debugEvents (ui p)))
           (Some room) (selectedRoom p) (token p) (liveKitUrl p)
           (showDebugPanel p).
Proof.
  unfold roomConnected, runPage. cbn [fold_left].
  fold (runPage (flat_map (fun participant =>
                             List.map OnUI
                               (actions
                                  (handleParticipantConnected participant)))
                          participants)
                (reducePage (reducePage p (AssignRoomRef (Some room)))
                            (SetIsConnected true))).
  rewrite runPage_replay, joinAll_last_match.
  destruct p as [u r sel tok url dbg]. cbn.
  now destruct (findLast (fun x => matchesAgent (identity x)) participants).
Qed.

(** X18: leaving resets the page: whatever the state was, after
    [disconnect] the session fields have their initial values, no room is
    kept, no room is selected and the token is empty (the server address is
    kept); the room is told to disconnect exactly when one was kept, so a
    second [disconnect] makes no call on the room and changes nothing. *)
Theorem disconnect_resets_the_page (p : Page) :
  runPage (disconnect p) p
  = mkPage initialUI None None (JString []) (liveKitUrl p) false
  /\ filter is_room_call (disconnect p)
     = match roomRefCurrent p with
       | Some _ => [RoomDisconnect]
       | None => []
       end
  /\ filter is_room_call (disconnect (runPage (disconnect p) p)) = []
  /\ runPage (disconnect (runPage (disconnect p) p)) (runPage (disconnect p) p)
     = runPage (disconnect p) p.
Proof.
  assert (H : runPage (disconnect p) p
              = mkPage initialUI None None (JString []) (liveKitUrl p) false).
  { unfold disconnect, runPage. destruct p as [u [r|] sel tok url dbg];
      reflexivity. }
  rewrite H. repeat split.
  unfold disconnect. now destruct (roomRefCurrent p).
Qed.

(** X19: when the connection is lost (the state becomes Disconnected), the
    connection flag and the agent are cleared while the captions, the
    translating flag and the event history stay; until the room connects
    again neither variant of the start/stop control sends anything.  The
    other connection states change nothing. *)
Theorem nothing_is_sent_after_connection_loss
    (p : Page) (now : JsNumber) (outcome : option jsstring) :
  runPage (connectionStateChanged Disconnected) p
  = withUI p (mkUI false (isTranslating (ui p)) (subtitle (ui p))
                   (partialSubtitle (ui p)) (finalSubtitle (ui p)) None
                   (debugEvents (ui p)))
  /\ network (Broadcast.toggleTranslation
                (ui (runPage (connectionStateChanged Disconnected) p))
                (roomRefCurrent
                   (runPage (connectionStateChanged Disconnected) p))
                now outcome) = []
  /\ network (Rpc.toggleTranslation
                (ui (runPage (connectionStateChanged Disconnected) p))
                (roomRefCurrent
                   (runPage (connectionStateChanged Disconnected) p))
                outcome) = []
  /\ runPage (connectionStateChanged Connecting) p = p
  /\ runPage (connectionStateChanged Connected) p = p
  /\ runPage (connectionStateChanged Reconnecting) p = p.
Proof.
  destruct p as [u r sel tok url dbg]. repeat split.
Qed.

(** ** The two web variants on the same payload *)

(** X20: for a translation event whose text is a string that is not blank,
    the RPC variant and the broadcast variant display the same thing, the
    text; for a transcript event with such a text they differ: the RPC
    variant displays it, the broadcast variant leaves the captions as they
    were. *)
Theorem variants_display_translation_text_alike
    (now : jsstring) (e : DataEvent) (jsonData : JsValue) (t : jsstring)
    (st : UI) :
  parsed (payload e) = Some jsonData ->
  nullish jsonData = false ->
  member jsonData "text" = JString t ->
  forallb is_whitespace t = false ->
  (member jsonData "type" = JString (lit "translation") ->
   RpcPage.handleDataReceived e = JString t
   /\ subtitle (run (handleDataReceived now e) st) = t)
  /\ (member jsonData "type" = JString (lit "transcript") ->
      RpcPage.handleDataReceived e = JString t
      /\ caption (run (handleDataReceived now e) st) = caption st).
Proof.
  intros Hp Hn Ht Hb.
  assert (Hne : t <> []) by (intros ->; discriminate).
  assert (Htc : textOrContent jsonData = JString t).
  { unfold textOrContent. rewrite Ht. now destruct t. }
  assert (Hs : structured (payload e) = Some jsonData).
  { unfold structured. now rewrite Hp, Hn, Ht. }
  split; intros Htype.
  - split.
    + unfold RpcPage.handleDataReceived. rewrite Hp, Hn, Htype, Ht.
      now destruct t.
    + rewrite run_handleDataReceived. unfold traceInsert, decode.
      rewrite Hs, Htype.
      replace (strict_eq_string (JString (lit "translation"))
                                (lit "translation_stream"))
        with false by reflexivity.
      replace (strict_eq_string (JString (lit "translation"))
                                (lit "translation"))
        with true by reflexivity.
      cbn [apply]. rewrite (handleTranslation_string jsonData Hn Htc).
      rewrite blank_message, Hb. reflexivity.
  - split.
    + unfold RpcPage.handleDataReceived. rewrite Hp, Hn, Htype, Ht.
      now destruct t.
    + assert (Hstr : is_string (textOrContent jsonData) = true)
        by now rewrite Htc.
      now rewrite (run_transcript now e st Hs Htype Hstr).
Qed.

Lemma variants_display_translation_text_alike_witness :
  RpcPage.handleDataReceived Cases.translation = JString (lit "hello")
  /\ subtitle (run (handleDataReceived (lit "12:00") Cases.translation)
                   Sample.busyUI)
     = lit "hello".
Proof.
  apply (@variants_display_translation_text_alike
           (lit "12:00") Cases.translation
           (Sample.object [ ("type"%string, JString (lit "translation"));
                            ("text"%string, JString (lit "hello")) ])
           (lit "hello") Sample.busyUI);
    reflexivity.
Defined.

(** ** The Flutter page *)

Lemma assignFromJson_keeps (data : JsValue) (st st' : FlutterPage.State) :
  FlutterPage.assignFromJson data st = Some st' ->
  FlutterPage._agent st' = FlutterPage._agent st
  /\ FlutterPage._isConnected st' = FlutterPage._isConnected st.
Proof.
  unfold FlutterPage.assignFromJson. intros H.
  destruct data; try discriminate.
  destruct (if strict_eq_string (member (JObject members) "type")
                                (lit "transcript")
               || strict_eq_string (member (JObject members) "type")
                                   (lit "translation")
            then match member (JObject members) "text" with
                 | JUndefined | JNull => Some []
                 | JString s => Some s
                 | _ => None
                 end
            else Some (FlutterPage._subtitle st)); [|discriminate].
  destruct (member (JObject members) "state"); try discriminate;
    injection H as <-; now split.
Qed.

(** X21: the data handler of the Flutter page lets an exception escape
    exactly when the bytes are not valid UTF-8, and then, as for a message
    that is not bytes, the state is unchanged; it never changes the agent
    or the connection flag; a text that is not a JSON object is displayed as
    it is and the agent state is kept; and a translation or transcript
    object without text and without state empties the subtitle. *)
Theorem flutter_data_message_outcomes
    (message : FlutterPage.DartMessage) (st : FlutterPage.State) :
  (snd (FlutterPage._handleDataMessage message st) = FlutterPage.Uncaught
   <-> message = FlutterPage.Malformed)
  /\ FlutterPage._agent (fst (FlutterPage._handleDataMessage message st))
     = FlutterPage._agent st
  /\ FlutterPage._isConnected
       (fst (FlutterPage._handleDataMessage message st))
     = FlutterPage._isConnected st
  /\ (message = FlutterPage.Malformed \/ message = FlutterPage.NotBytes ->
      fst (FlutterPage._handleDataMessage message st) = st)
  /\ (forall text json,
         message = FlutterPage.Text text json ->
         (forall members, json <> Some (JObject members)) ->
         fst (FlutterPage._handleDataMessage message st)
         = FlutterPage.mkState (FlutterPage._agent st) text
                               (FlutterPage._agentState st)
                               (FlutterPage._isConnected st))
  /\ (forall text members,
         message = FlutterPage.Text text (Some (JObject members)) ->
         member (JObject members) "type" = JString (lit "translation")
         \/ member (JObject members) "type" = JString (lit "transcript") ->
         nullish (member (JObject members) "text") = true ->
         nullish (member (JObject members) "state") = true ->
         fst (FlutterPage._handleDataMessage message st)
         = FlutterPage.mkState (FlutterPage._agent st) []
                               (FlutterPage._agentState st)
                               (FlutterPage._isConnected st)).
Proof.
  split; [|split; [|split; [|split; [|split]]]].
  - destruct message as [| |text [data|]]; cbn.
    + split; intros H; discriminate H.
    + split; reflexivity.
    + destruct (FlutterPage.assignFromJson data st); cbn;
        split; intros H; discriminate H.
    + split; intros H; discriminate H.
  - destruct message as [| |text [data|]]; cbn; try reflexivity.
    destruct (FlutterPage.assignFromJson data st) as [st'|] eqn:H;
      [|reflexivity].
    now apply assignFromJson_keeps in H.
  - destruct message as [| |text [data|]]; cbn; try reflexivity.
    destruct (FlutterPage.assignFromJson data st) as [st'|] eqn:H;
      [|reflexivity].
    now apply assignFromJson_keeps in H.
  - now intros [-> | ->].
  - intros text json -> Hno. cbn.
    destruct json as [data|]; [|reflexivity].
    destruct data; try reflexivity. now elim (Hno members).
  - intros text members -> Htype Htext Hstate.
    cbn -[member lit]. 
    assert (Ht : strict_eq_string (member (JObject members) "type")
                                  (lit "transcript")
                 || strict_eq_string (member (JObject members) "type")
                                     (lit "translation") = true).
    { destruct Htype as [-> | ->]; reflexivity. }
    rewrite Ht.
    destruct (member (JObject members) "text"); try discriminate;
      destruct (member (JObject members) "state"); try discriminate;
      reflexivity.
Qed.

Lemma flutter_data_message_outcomes_witness :
  fst (FlutterPage._handleDataMessage FlutterPage.Malformed Cases.flutterBusy)
  = Cases.flutterBusy
  /\ fst (FlutterPage._handleDataMessage
            (FlutterPage.Text (lit "hello") None) Cases.flutterBusy)
     = FlutterPage.mkState (Some Sample.translator42) (lit "hello")
                           FlutterPage.label_found true.
Proof.
  destruct (flutter_data_message_outcomes FlutterPage.Malformed
                                          Cases.flutterBusy)
    as (_ & _ & _ & Hsame & _).
  destruct (flutter_data_message_outcomes
              (FlutterPage.Text (lit "hello") None) Cases.flutterBusy)
    as (_ & _ & _ & _ & Hplain & _).
  split.
  - apply Hsame. now left.
  - apply (Hplain (lit "hello") None); [reflexivity | discriminate].
Defined.

Lemma _handleParticipant_not_speaking
    (participant : Participant) (st : FlutterPage.State) :
  not_speaking st ->
  not_speaking (FlutterPage._handleParticipant participant st).
Proof.
  unfold FlutterPage._handleParticipant.
  now destruct (includes (identity participant) (lit "translator")).
Qed.

Lemma assignFromJson_not_speaking
    (data : JsValue) (st st' : FlutterPage.State) :
  FlutterPage.assignFromJson data st = Some st' ->
  not_speaking st -> not_speaking st'.
Proof.
  unfold FlutterPage.assignFromJson, not_speaking. intros H Hst.
  destruct data; try discriminate.
  destruct (if strict_eq_string (member (JObject members) "type")
                                (lit "transcript")
               || strict_eq_string (member (JObject members) "type")
                                   (lit "translation")
            then match member (JObject members) "text" with
                 | JUndefined | JNull => Some []
                 | JString s => Some s
                 | _ => None
                 end
            else Some (FlutterPage._subtitle st)); [|discriminate].
  destruct (member (JObject members) "state") as [| | | |s| |];
    try discriminate; injection H as <-; cbn [FlutterPage._agentState];
    try exact Hst.
  destruct (JsString.eqb s (lit "listening")); [reflexivity|].
  destruct (JsString.eqb s (lit "thinking")); [reflexivity|].
  destruct (JsString.eqb s (lit "speaking")) eqn:Hs; [reflexivity | exact Hs].
Qed.

Lemma step_not_speaking (st : FlutterPage.State) (event : FlutterPage.Event) :
  not_speaking st -> not_speaking (FlutterPage.step st event).
Proof.
  intros Hst. destruct event as [participants|error| |participant|message];
    cbn [FlutterPage.step].
  - assert (H0 : not_speaking
                   (FlutterPage.mkState (FlutterPage._agent st)
                      (FlutterPage._subtitle st) FlutterPage.label_connected
                      true)) by reflexivity.
    revert H0.
    generalize (FlutterPage.mkState (FlutterPage._agent st)
                  (FlutterPage._subtitle st) FlutterPage.label_connected true).
    induction participants as [|p rest IH]; intros s Hs; [exact Hs|].
    cbn [fold_left]. apply IH. now apply _handleParticipant_not_speaking.
  - reflexivity.
  - reflexivity.
  - now apply _handleParticipant_not_speaking.
  - destruct message as [| |text [data|]]; cbn; try exact Hst.
    destruct (FlutterPage.assignFromJson data st) as [st'|] eqn:H;
      [|exact Hst].
    exact (assignFromJson_not_speaking data H Hst).
Qed.

(** X22: on the Flutter page the agent state is never the word "speaking":
    the state "speaking" of a message is shown under its label, and any
    other value is either a label or a state other than the three known
    ones.  So whatever happens to the page, the simulated audio level, which
    waits for the agent state to be "speaking", is always zero. *)
Theorem flutter_audio_level_is_always_zero
    (events : list FlutterPage.Event) (count : nat) :
  FlutterPage.audioLevel
    (FlutterPage.steps events FlutterPage.initialState) count = None.
Proof.
  assert (H : not_speaking
                (FlutterPage.steps events FlutterPage.initialState)).
  { assert (H0 : not_speaking FlutterPage.initialState) by reflexivity.
    revert H0. generalize FlutterPage.initialState.
    induction events as [|event rest IH]; intros s Hs; [exact Hs|].
    unfold FlutterPage.steps. cbn [fold_left]. apply IH.
    now apply step_not_speaking. }
  unfold FlutterPage.audioLevel. unfold not_speaking in H. rewrite H.
  now rewrite andb_false_r.
Qed.
